(** * The transit-itinerary interpreter of [TransitApiTool.execute]

    A shallow embedding of [src/tools/TransitTool.ts].  The tool posts a
    directions request, receives a loosely typed JSON document and turns
    it into a plain-text report; everything between the arrival of the
    response (or of the rejection) and the returned text is embedded
    here.

    Conventions of the embedding.
    - A JavaScript value is a [value]: the JSON constructors plus
      [JUndefined], the result of reading a property that is not there.
      An object is its property list in an association list, first
      binding first.
    - A string is a [string] of bytes, the UTF-8 encoding of the
      JavaScript string.
    - A number is an integer [JNum n].  The program divides such numbers
      by 60 and by 1000; the quotients are IEEE 754 binary64 values and
      are computed with the Standard Library's [SpecFloat].  A number
      outside the safe integer range, or a value that is not a number
      where the program does arithmetic, leaves the embedded fragment:
      the embedding then answers [Unsupported] instead of guessing.
    - An exception is a [Throw]; [execute] catches it as the [catch]
      block of the source does. *)

From Stdlib Require Import ZArith List String Ascii Bool Lia DecimalString.
From Stdlib Require Import Floats.SpecFloat.
From Stdlib Require Import DecimalPos DecimalZ.
Import ListNotations.

Set Warnings "-register-all".

Open Scope string_scope.
Open Scope Z_scope.

(** ** Values *)

Inductive value : Type :=
| JUndefined
| JNull
| JBool (b : bool)
| JNum (n : Z)
| JStr (s : string)
| JArr (items : list value)
| JObj (fields : list (string * value)).

(** What the [try] block can throw.  [UpstreamError] is the rejection of
    the [axios.post] promise; the other three are the [TypeError]s the
    engine raises while the response is interpreted. *)
Inductive JsError : Type :=
| UpstreamError (msg : string)
| CannotRead (base : value) (key : string)
| NotAFunction (what : string)
| CannotConvert.

Inductive result (A : Type) : Type :=
| Ok (a : A)
| Throw (e : JsError)
| Unsupported.

Arguments Ok {A} a.
Arguments Throw {A} e.
Arguments Unsupported {A}.

Definition bind {A B : Type} (r : result A) (k : A -> result B) : result B :=
  match r with
  | Ok a => k a
  | Throw e => Throw e
  | Unsupported => Unsupported
  end.

Notation "x <- r ;; k" := (bind r (fun x => k))
  (at level 61, r at next level, right associativity).

Definition mapM {A B : Type} (f : A -> result B) : list A -> result (list B) :=
  fix go (l : list A) : result (list B) :=
    match l with
    | [] => Ok []
    | x :: r => y <- f x ;; ys <- go r ;; Ok (y :: ys)
    end.

(** [Array.prototype.map] hands the callback the element and its index. *)
Definition mapMi {A B : Type} (f : nat -> A -> result B) : nat -> list A -> result (list B) :=
  fix go (i : nat) (l : list A) : result (list B) :=
    match l with
    | [] => Ok []
    | x :: r => y <- f i x ;; ys <- go (S i) r ;; Ok (y :: ys)
    end.

(** ** Strings *)

Definition nl : string := String "010"%char EmptyString.

(** [Array.prototype.join] on elements that are strings already. *)
Fixpoint join (sep : string) (l : list string) : string :=
  match l with
  | [] => EmptyString
  | [s] => s
  | s :: r => s ++ sep ++ join sep r
  end.

(** White space in the sense of [String.prototype.trim], on UTF-8 bytes:
    TAB, LF, VT, FF, CR, SP; U+00A0; U+1680, U+2000..U+200A, U+2028,
    U+2029, U+202F, U+205F, U+3000 and U+FEFF. *)
Definition ws1 (c : ascii) : bool :=
  let n := N_of_ascii c in
  ((9 <=? n) && (n <=? 13) || (n =? 32))%N.

Definition ws2 (a b : ascii) : bool :=
  ((N_of_ascii a =? 194) && (N_of_ascii b =? 160))%N.

Definition ws3 (a b c : ascii) : bool :=
  let x := N_of_ascii a in
  let y := N_of_ascii b in
  let z := N_of_ascii c in
  ((x =? 225) && (y =? 154) && (z =? 128)
   || (x =? 226) && (y =? 128)
      && ((128 <=? z) && (z <=? 138) || (z =? 168) || (z =? 169) || (z =? 175))
   || (x =? 226) && (y =? 129) && (z =? 159)
   || (x =? 227) && (y =? 128) && (z =? 128)
   || (x =? 239) && (y =? 187) && (z =? 191))%N.

Fixpoint trimStart (s : string) : string :=
  match s with
  | EmptyString => EmptyString
  | String a r =>
    if ws1 a then trimStart r
    else match r with
         | String b r2 =>
           if ws2 a b then trimStart r2
           else match r2 with
                | String c r3 => if ws3 a b c then trimStart r3 else s
                | EmptyString => s
                end
         | EmptyString => s
         end
  end.

(** The same scan from the end, on the reversed byte list. *)
Fixpoint dropWs (l : list ascii) : list ascii :=
  match l with
  | [] => []
  | c :: r =>
    if ws1 c then dropWs r
    else match r with
         | b :: r2 =>
           if ws2 b c then dropWs r2
           else match r2 with
                | a :: r3 => if ws3 a b c then dropWs r3 else l
                | [] => l
                end
         | [] => l
         end
  end.

Definition trimEnd (s : string) : string :=
  string_of_list_ascii (rev (dropWs (rev (list_ascii_of_string s)))).

Definition trim (s : string) : string := trimEnd (trimStart s).

(** ** Numbers *)

(** [Number.MAX_SAFE_INTEGER] *)
Definition MAX_SAFE_INTEGER : Z := 9007199254740991.

Definition safe (n : Z) : bool := Z.abs n <=? MAX_SAFE_INTEGER.

Definition decimal (n : Z) : string := NilZero.string_of_int (Z.to_int n).

(** [Number::toString] of an integer-valued number. *)
Definition NumberToString (n : Z) : result string :=
  if safe n then Ok (decimal n) else Unsupported.

(** binary64 *)
Definition prec : Z := 53.
Definition emax : Z := 1024.

Definition toDouble (n : Z) : spec_float := binary_normalize prec emax n 0 false.

(** [a / b] on two integer-valued numbers. *)
Definition divide (a b : Z) : spec_float :=
  SFdiv prec emax (toDouble a) (toDouble b).

(** [Math.round]: the integer closest to [x], the one towards +infinity
    when two are equally close.  A finite [x] is [v * 2^e]. *)
Definition Math_round (x : spec_float) : option Z :=
  match x with
  | S754_zero _ => Some 0
  | S754_finite s m e =>
    let v := if s then Z.neg m else Z.pos m in
    Some (if 0 <=? e then v * 2 ^ e else (2 * v + 2 ^ (- e)) / 2 ^ (1 - e))
  | _ => None
  end.

(** [Number.prototype.toFixed(1)]: with [n] the integer for which
    [n / 10 - |x|] is closest to zero (the larger one on a tie), the sign,
    the digits of [n] before the last, a point and the last digit. *)
Definition toFixed1 (x : spec_float) : option string :=
  match x with
  | S754_zero _ => Some ("0" ++ "." ++ "0")
  | S754_finite s m e =>
    let n := if 0 <=? e then 10 * Z.pos m * 2 ^ e
             else (20 * Z.pos m + 2 ^ (- e)) / 2 ^ (1 - e) in
    Some ((if s then "-" else EmptyString)
            ++ decimal (n / 10) ++ "." ++ decimal (n mod 10))
  | _ => None
  end.

(** ** Reading values *)

Definition nullish (v : value) : bool :=
  match v with
  | JUndefined | JNull => true
  | _ => false
  end.

(** [ToBoolean] *)
Definition truthy (v : value) : bool :=
  match v with
  | JUndefined | JNull => false
  | JBool b => b
  | JNum n => negb (n =? 0)
  | JStr s => negb (String.eqb s EmptyString)
  | JArr _ | JObj _ => true
  end.

Fixpoint lookup (k : string) (fields : list (string * value)) : value :=
  match fields with
  | [] => JUndefined
  | (k', v) :: r => if String.eqb k k' then v else lookup k r
  end.

Definition hasKey (k : string) (fields : list (string * value)) : bool :=
  existsb (fun kv => String.eqb k (fst kv)) fields.

(** [v.k] on a value that is neither [undefined] nor [null].  None of the
    keys the program reads as data is a member of a prototype, so an
    object answers with its own property, an array or a string with its
    [length], and everything else with [undefined]. *)
Definition prop (v : value) (k : string) : value :=
  match v with
  | JObj fields => lookup k fields
  | JArr items =>
    if String.eqb k "length" then JNum (Z.of_nat (List.length items)) else JUndefined
  | JStr s =>
    if String.eqb k "length" then JNum (Z.of_nat (String.length s)) else JUndefined
  | _ => JUndefined
  end.

(** [v.k] *)
Definition get (v : value) (k : string) : result value :=
  if nullish v then Throw (CannotRead v k) else Ok (prop v k).

(** [v?.k] *)
Definition optget (v : value) (k : string) : value :=
  if nullish v then JUndefined else prop v k.

(** [v[0]] on a value that is neither [undefined] nor [null]. *)
Definition index0 (v : value) : value :=
  match v with
  | JArr items => hd JUndefined items
  | JObj fields => lookup "0" fields
  | JStr (String c _) => JStr (String c EmptyString)
  | _ => JUndefined
  end.

(** [a || b] and [a ?? b] *)
Definition or_else (a b : value) : value := if truthy a then a else b.
Definition coalesce (a b : value) : value := if nullish a then b else a.

(** [a === b] against a string or a number literal *)
Definition is_string (v : value) (s : string) : bool :=
  match v with
  | JStr t => String.eqb t s
  | _ => false
  end.

Definition is_number (v : value) (n : Z) : bool :=
  match v with
  | JNum m => m =? n
  | _ => false
  end.

Definition is_undefined (v : value) : bool :=
  match v with
  | JUndefined => true
  | _ => false
  end.

(** [ToString], what a template literal applies to a substitution.  An
    array is its elements joined by a comma, [undefined] and [null]
    elements as the empty string.  An object is ["[object Object]"],
    unless an own property shadows [Object.prototype.toString]: a JSON
    value is never callable, and the conversion then fails. *)
Fixpoint ToString (v : value) : result string :=
  match v with
  | JUndefined => Ok "undefined"
  | JNull => Ok "null"
  | JBool true => Ok "true"
  | JBool false => Ok "false"
  | JNum n => NumberToString n
  | JStr s => Ok s
  | JArr items =>
    parts <- mapM (fun x => if nullish x then Ok EmptyString else ToString x) items ;;
    Ok (join "," parts)
  | JObj fields =>
    if hasKey "toString" fields then Throw CannotConvert else Ok "[object Object]"
  end.

(** [Array.prototype.join] on arbitrary elements. *)
Definition joinValues (sep : string) (l : list value) : result string :=
  parts <- mapM (fun x => if nullish x then Ok EmptyString else ToString x) l ;;
  Ok (join sep parts).

(** [ToNumber], on the numbers of the embedded fragment. *)
Definition ToNumber (v : value) : result Z :=
  match v with
  | JNum n => if safe n then Ok n else Unsupported
  | _ => Unsupported
  end.

(** [Math.round(v / 60)] *)
Definition roundMinutes (v : value) : result Z :=
  n <- ToNumber v ;;
  match Math_round (divide n 60) with
  | Some r => Ok r
  | None => Unsupported
  end.

(** [(v / 1000).toFixed(1)] *)
Definition kilometres (v : value) : result string :=
  n <- ToNumber v ;;
  match toFixed1 (divide n 1000) with
  | Some s => Ok s
  | None => Unsupported
  end.

(** [message] of a thrown error, in the engine's words for a [TypeError]. *)
Definition message (e : JsError) : string :=
  match e with
  | UpstreamError msg => msg
  | CannotRead base key =>
    "Cannot read properties of "
      ++ (match base with JNull => "null" | _ => "undefined" end)
      ++ " (reading '" ++ key ++ "')"
  | NotAFunction what => what ++ " is not a function"
  | CannotConvert => "Cannot convert object to primitive value"
  end.

(** ** The report, from [execute] (source lines 84 to 229) *)

Definition NOT_FOUND : string := "경로를 찾을 수 없습니다.".
Definition FAILURE_PREFIX : string := "대중교통 경로 조회 실패: ".

Definition arrow : string := " → ".

(** The receiver of a [.map] call on a value that may not be an array. *)
Definition arrayOf (what : string) (v : value) : result (list value) :=
  match v with
  | JArr items => Ok items
  | _ => Throw (NotAFunction what)
  end.

(** The callback of [stops] (lines 118 to 122). *)
Definition stopLabel (leg : value) : result value :=
  mode <- get leg "mode" ;;
  if is_string mode "WALK" then Ok (JStr "도보")
  else
    route <- get leg "route" ;;
    if truthy route then Ok route else get leg "mode".

(** [leg.start?.name ? leg.start.name : ''] (lines 130 and 131). *)
Definition endpoint (leg : value) (k : string) : result value :=
  p <- get leg k ;;
  let name := optget p "name" in
  Ok (if truthy name then name else JStr EmptyString).

(** [if (v) desc += `    - label: ${v}\n`] *)
Definition labelled (label : string) (v : value) : result string :=
  if truthy v
  then s <- ToString v ;; Ok ("    - " ++ label ++ ": " ++ s ++ nl)
  else Ok EmptyString.

(** [${Math.round((leg.sectionTime || 0) / 60)}] *)
Definition sectionMinutes (leg : value) : result string :=
  sectionTime <- get leg "sectionTime" ;;
  r <- roundMinutes (or_else sectionTime (JNum 0)) ;;
  NumberToString r.

(** Lines 139 to 147. *)
Definition stepLine (step : value) : result string :=
  description <- get step "description" ;;
  s <- ToString (or_else description (JStr EmptyString)) ;;
  Ok ("    · " ++ s).

Definition walkSteps (leg : value) : result string :=
  steps <- get leg "steps" ;;
  match steps with
  | JArr items => ls <- mapM stepLine items ;; Ok (join nl ls ++ nl)
  | _ => Ok EmptyString
  end.

(** Lines 168 to 171. *)
Definition serviceLine (lane : value) : result string :=
  service <- get lane "service" ;;
  if is_undefined service then Ok EmptyString
  else Ok ("    - 운행여부: "
             ++ (if is_number service 1 then "운행중" else "운행종료") ++ nl).

(** Lines 158 to 172. *)
Definition laneLines (leg : value) : result string :=
  Lane <- get leg "Lane" ;;
  match Lane with
  | JArr (lane :: _) =>
    route <- get lane "route" ;;
    r <- labelled "노선" route ;;
    ty <- get lane "type" ;;
    t <- labelled "노선타입" ty ;;
    s <- serviceLine lane ;;
    Ok (r ++ t ++ s)
  | _ => Ok EmptyString
  end.

(** Lines 174 to 187. *)
Definition passedStations (leg : value) : result string :=
  passStopList <- get leg "passStopList" ;;
  if truthy passStopList then
    match prop passStopList "stationList" with
    | JArr stationList =>
      names <- mapM (fun station => get station "stationName") stationList ;;
      match filter truthy names with
      | [] => Ok EmptyString
      | stations =>
        j <- joinValues arrow stations ;;
        Ok ("    - 경유지: " ++ j ++ nl)
      end
    | _ => Ok EmptyString
    end
  else Ok EmptyString.

(** [`(${leg.route})`] when the route is truthy (line 151). *)
Definition routeLabel (leg : value) : result string :=
  route <- get leg "route" ;;
  if truthy route then x <- ToString route ;; Ok ("(" ++ x ++ ")")
  else Ok EmptyString.

(** [`[${idx + 1}] `] (line 128). *)
Definition legHead (idx : nat) : string :=
  "[" ++ decimal (Z.of_nat idx + 1) ++ "] ".

(** The callback of [legsDetail] (lines 127 to 190). *)
Definition legDetail (idx : nat) (leg : value) : result string :=
  let head := legHead idx in
  startName <- endpoint leg "start" ;;
  endName <- endpoint leg "end" ;;
  mode <- get leg "mode" ;;
  desc <-
    (if is_string mode "WALK" then
       distance <- get leg "distance" ;;
       d <- ToString distance ;;
       m <- sectionMinutes leg ;;
       s <- labelled "출발" startName ;;
       e <- labelled "도착" endName ;;
       w <- walkSteps leg ;;
       Ok (head ++ "도보 (" ++ d ++ "m, 약 " ++ m ++ "분)" ++ nl ++ s ++ e ++ w)
     else
       md <- ToString mode ;;
       r <- routeLabel leg ;;
       distance <- get leg "distance" ;;
       d <- ToString distance ;;
       m <- sectionMinutes leg ;;
       s <- labelled "승차" startName ;;
       e <- labelled "하차" endName ;;
       l <- laneLines leg ;;
       p <- passedStations leg ;;
       Ok (head ++ md ++ r ++ " - " ++ d ++ "m, 약 " ++ m ++ "분" ++ nl
             ++ s ++ e ++ l ++ p)) ;;
  Ok (trim desc).

(** The constants of lines 97 to 114. *)
Record Metrics : Type := {
  durationMin : option Z;
  transfers : value;
  distanceKm : option string;
  walkDistance : value;
  walkTimeMin : option Z;
  fare : value
}.

(** [v ? f(v) : undefined] *)
Definition whenTruthy {A : Type} (v : value) (f : value -> result A) : result (option A) :=
  if truthy v then x <- f v ;; Ok (Some x) else Ok None.

Definition readMetrics (best : value) : result Metrics :=
  totalTime <- get best "totalTime" ;;
  durationMin <- whenTruthy totalTime roundMinutes ;;
  transferCount <- get best "transferCount" ;;
  totalDistance <- get best "totalDistance" ;;
  distanceKm <- whenTruthy totalDistance kilometres ;;
  totalWalkDistance <- get best "totalWalkDistance" ;;
  totalWalkTime <- get best "totalWalkTime" ;;
  walkTimeMin <- whenTruthy totalWalkTime roundMinutes ;;
  fareObj <- get best "fare" ;;
  Ok {| durationMin := durationMin;
        transfers := coalesce transferCount (JNum 0);
        distanceKm := distanceKm;
        walkDistance := coalesce totalWalkDistance (JNum 0);
        walkTimeMin := walkTimeMin;
        fare := coalesce (optget (optget fareObj "regular") "totalFare") (JNum 0) |}.

(** The lines of the metrics block (lines 199 to 210), each one the empty
    string when its condition fails. *)
Definition durationLine (m : Metrics) : result string :=
  match durationMin m with
  | Some r => s <- NumberToString r ;; Ok ("소요 시간: 약 " ++ s ++ "분" ++ nl)
  | None => Ok EmptyString
  end.

Definition transfersLine (m : Metrics) : result string :=
  s <- ToString (transfers m) ;; Ok ("환승: " ++ s ++ "회" ++ nl).

Definition fareLine (m : Metrics) : result string :=
  if truthy (fare m)
  then s <- ToString (fare m) ;; Ok ("요금: " ++ s ++ "원" ++ nl)
  else Ok EmptyString.

Definition distanceLine (m : Metrics) : result string :=
  match distanceKm m with
  | Some s => if truthy (JStr s) then Ok ("총 거리: " ++ s ++ "km" ++ nl) else Ok EmptyString
  | None => Ok EmptyString
  end.

Definition walkDistanceLine (m : Metrics) : result string :=
  if truthy (walkDistance m)
  then s <- ToString (walkDistance m) ;; Ok ("총 도보 거리: " ++ s ++ "m" ++ nl)
  else Ok EmptyString.

Definition walkTimeLine (m : Metrics) : result string :=
  match walkTimeMin m with
  | Some r => s <- NumberToString r ;; Ok ("총 도보 시간: 약 " ++ s ++ "분" ++ nl)
  | None => Ok EmptyString
  end.

Definition metricsBlock (m : Metrics) : result string :=
  d <- durationLine m ;;
  t <- transfersLine m ;;
  f <- fareLine m ;;
  k <- distanceLine m ;;
  w <- walkDistanceLine m ;;
  wt <- walkTimeLine m ;;
  Ok (d ++ t ++ f ++ k ++ w ++ wt).

(** Lines 95 to 214: the report on the itinerary [best]. *)
Definition report (best : value) : result string :=
  m <- readMetrics best ;;
  bestLegs <- get best "legs" ;;
  legs <- arrayOf "legs.map" (or_else bestLegs (JArr [])) ;;
  labels <- mapM stopLabel legs ;;
  stops <- joinValues arrow labels ;;
  details <- mapMi legDetail 0 legs ;;
  let legsDetail := join (nl ++ nl) details in
  metrics <- metricsBlock m ;;
  Ok ("경로 요약: " ++ stops ++ nl ++ metrics ++ nl ++ "[상세 경유지]" ++ nl ++ legsDetail).

(** Lines 84 to 95: the guard on [response.data] and the choice of the
    first itinerary. *)
Definition planOf (data : value) : value :=
  optget (optget data "metaData") "plan".

Definition noRoute (plan : value) : bool :=
  negb (truthy plan)
  || negb (truthy (prop plan "itineraries"))
  || is_number (prop (prop plan "itineraries") "length") 0.

(** [plan.itineraries[0]], or nothing when the guard of line 85 fires. *)
Definition bestOf (data : value) : option value :=
  let plan := planOf data in
  if noRoute plan then None else Some (index0 (prop plan "itineraries")).

Definition interpret (data : value) : result string :=
  match bestOf data with
  | None => Ok NOT_FOUND
  | Some best => report best
  end.

(** What the awaited [axios.post] call does: it answers with
    [response.data], or it rejects with an error that has a message. *)
Inductive upstream : Type :=
| Responded (data : value)
| Rejected (msg : string).

(** [execute]: the text of the single content item it returns.  [None]
    only when the response leaves the embedded fragment. *)
Definition execute (u : upstream) : option string :=
  let attempt :=
    match u with
    | Responded data => interpret data
    | Rejected msg => Throw (UpstreamError msg)
    end in
  match attempt with
  | Ok text => Some text
  | Throw e => Some (FAILURE_PREFIX ++ message e)
  | Unsupported => None
  end.

(** ** Vocabulary of the statements *)

(** A response that carries [best] as its only itinerary. *)
Definition responseWith (best : value) : value :=
  JObj [("metaData", JObj [("plan", JObj [("itineraries", JArr [best])])])].

(** A text of one line has no line feed in it. *)
Fixpoint oneLine (s : string) : bool :=
  match s with
  | EmptyString => true
  | String c r => negb (Ascii.eqb c "010"%char) && oneLine r
  end.

(** The report on an itinerary without legs: an empty route summary and
    an empty detail block around the metrics. *)
Definition zeroLegReport (metrics : string) : string :=
  "경로 요약: " ++ nl ++ metrics ++ nl ++ "[상세 경유지]" ++ nl.

Definition isFailure (text : string) : bool := prefix FAILURE_PREFIX text.



(** The shape of a leg as the provider documents it, every field
    optional: what is there has the expected type, what is not there is
    [undefined]. *)
Definition isText (v : value) : bool :=
  match v with
  | JStr _ => true
  | _ => false
  end.

Definition isCount (v : value) : bool :=
  match v with
  | JNum n => safe n
  | _ => false
  end.

Definition isObject (v : value) : bool :=
  match v with
  | JObj _ => true
  | _ => false
  end.

Definition absentOr (shape : value -> bool) (v : value) : bool :=
  is_undefined v || shape v.

Definition arrayOfShape (shape : value -> bool) (v : value) : bool :=
  match v with
  | JArr items => forallb shape items
  | _ => false
  end.

Definition namedShape (v : value) : bool :=
  isObject v && absentOr isText (prop v "name").

Definition stepShape (v : value) : bool :=
  isObject v && absentOr isText (prop v "description").

Definition laneShape (v : value) : bool :=
  isObject v
  && absentOr isText (prop v "route")
  && absentOr (fun t => isText t || isCount t) (prop v "type").

Definition stationShape (v : value) : bool :=
  isObject v && absentOr isText (prop v "stationName").

Definition stopListShape (v : value) : bool :=
  isObject v && absentOr (arrayOfShape stationShape) (prop v "stationList").

Definition legShape (leg : value) : bool :=
  isObject leg
  && absentOr isText (prop leg "mode")
  && absentOr isText (prop leg "route")
  && absentOr isCount (prop leg "distance")
  && absentOr isCount (prop leg "sectionTime")
  && absentOr namedShape (prop leg "start")
  && absentOr namedShape (prop leg "end")
  && absentOr (arrayOfShape stepShape) (prop leg "steps")
  && absentOr (arrayOfShape laneShape) (prop leg "Lane")
  && absentOr stopListShape (prop leg "passStopList").

(** The same for the itinerary: its numbers, its fare and its legs. *)
Definition regularShape (v : value) : bool :=
  isObject v && absentOr isCount (prop v "totalFare").

Definition fareShape (v : value) : bool :=
  isObject v && absentOr regularShape (prop v "regular").

Definition itineraryShape (best : value) : bool :=
  isObject best
  && absentOr isCount (prop best "totalTime")
  && absentOr isCount (prop best "transferCount")
  && absentOr isCount (prop best "totalDistance")
  && absentOr isCount (prop best "totalWalkDistance")
  && absentOr isCount (prop best "totalWalkTime")
  && absentOr fareShape (prop best "fare")
  && absentOr (arrayOfShape legShape) (prop best "legs").

(** ** The other two tools *)

(** The members of [Object.prototype].  A JSON object answers a read of
    one of these names, when it has no own property of that name, with
    a function or with the prototype itself: a value outside [value]. *)
Definition objectPrototypeKeys : list string :=
  ["constructor"; "hasOwnProperty"; "isPrototypeOf"; "propertyIsEnumerable";
   "toLocaleString"; "toString"; "valueOf"; "__proto__";
   "__defineGetter__"; "__defineSetter__"; "__lookupGetter__"; "__lookupSetter__"].

(** [v[k]] for a key [k] that the caller chooses.  Only the reads on an
    object that end at an own property or at [undefined] are embedded. *)
Definition getComputed (v : value) (k : string) : result value :=
  match v with
  | JUndefined | JNull => Throw (CannotRead v k)
  | JObj fields =>
    if hasKey k fields then Ok (lookup k fields)
    else if existsb (String.eqb k) objectPrototypeKeys then Unsupported
    else Ok JUndefined
  | _ => Unsupported
  end.

(** [throw new Error(msg)].  A [catch] block knows an error by its
    message, so the error is the one that carries [msg]. *)
Definition throwError {A : Type} (msg : string) : result A :=
  Throw (UpstreamError msg).

(** [await] on a request. *)
Definition await (u : upstream) : result value :=
  match u with
  | Responded data => Ok data
  | Rejected msg => Throw (UpstreamError msg)
  end.

(** [catch (error) { throw new Error(`${prefix}${error.message}`) }] *)
Definition rethrow {A : Type} (prefix : string) (attempt : result A) : result A :=
  match attempt with
  | Throw e => throwError (prefix ++ message e)
  | other => other
  end.

(** [ExchangeRateApiTool], the second class of [TransitTool.ts]. *)
Module ExchangeRate.

Record Response : Type := {
  base : string;
  target : string;
  rate : value;
  date : value
}.

Definition FAILURE_PREFIX : string := "환율 데이터 가져오기 실패: ".
Definition NOT_SUCCESS : string := "환율 데이터 조회 실패".

Definition noRate (target : string) : string :=
  "대상 통화(" ++ target ++ ")에 대한 환율 정보를 찾을 수 없습니다.".

(** The [try] block (lines 273 to 288). *)
Definition attempt (API_URL : string) (axios_get : string -> upstream)
    (base target : string) : result Response :=
  data <- await (axios_get (API_URL ++ base)) ;;
  status <- get data "result" ;;
  if negb (is_string status "success") then throwError NOT_SUCCESS
  else
    rates <- get data "rates" ;;
    rate <- getComputed rates target ;;
    if is_undefined rate then throwError (noRate target)
    else
      date <- get data "time_last_update_utc" ;;
      Ok {| base := base; target := target; rate := rate; date := date |}.

(** [execute] (lines 268 to 292): what it returns, or the error it
    throws. *)
Definition execute (API_URL : string) (axios_get : string -> upstream)
    (base target : string) : result Response :=
  rethrow FAILURE_PREFIX (attempt API_URL axios_get base target).

End ExchangeRate.

(** [WeatherApiTool]. *)
Module Weather.

Record Response : Type := {
  city : value;
  temperature : Z;
  condition : string;
  humidity : Z;
  windSpeed : Z;
  feelsLike : Z;
  precipitation : value
}.

(** The table of [getWeatherCondition]; the keys of an object literal
    are strings. *)
Definition conditions : list (string * string) :=
  [("0", "맑은 하늘"); ("1", "주로 맑음"); ("2", "부분적으로 흐림"); ("3", "흐림");
   ("45", "안개"); ("48", "서리안개");
   ("51", "가벼운 이슬비"); ("53", "보통 이슬비"); ("55", "강한 이슬비");
   ("61", "약한 비"); ("63", "보통 비"); ("65", "강한 비");
   ("71", "약한 눈"); ("73", "보통 눈"); ("75", "강한 눈"); ("77", "눈 알갱이");
   ("80", "약한 소나기"); ("81", "보통 소나기"); ("82", "강한 소나기");
   ("85", "약한 눈소나기"); ("86", "강한 눈소나기");
   ("95", "천둥번개"); ("96", "약한 우박을 동반한 천둥번개");
   ("99", "강한 우박을 동반한 천둥번개")].

Definition UNKNOWN : string := "알 수 없음".

Fixpoint entry (key : string) (table : list (string * string)) : option string :=
  match table with
  | [] => None
  | (k, label) :: r => if String.eqb key k then Some label else entry key r
  end.

(** [conditions[code] || '알 수 없음'] (line 121). *)
Definition getWeatherCondition (code : value) : result string :=
  key <- ToString code ;;
  match entry key conditions with
  | Some label => Ok (if String.eqb label EmptyString then UNKNOWN else label)
  | None =>
    if existsb (String.eqb key) objectPrototypeKeys then Unsupported else Ok UNKNOWN
  end.

(** [Math.round(v)] *)
Definition round (v : value) : result Z :=
  n <- ToNumber v ;;
  match Math_round (toDouble n) with
  | Some r => Ok r
  | None => Unsupported
  end.

Definition FAILURE_PREFIX : string := "날씨 데이터 가져오기 실패: ".

Definition noCity (city : string) : string :=
  "도시 '" ++ city ++ "'를 찾을 수 없습니다".

(** The [try] block (lines 35 to 81).  [geocoding] answers the first
    request, made for the name of the city; [forecast] answers the
    second one, made for a latitude and a longitude. *)
Definition attempt (geocoding : string -> upstream)
    (forecast : value -> value -> upstream) (city : string) : result Response :=
  geo <- await (geocoding city) ;;
  results <- get geo "results" ;;
  if negb (truthy (optget results "length")) then throwError (noCity city)
  else
    let location := index0 results in
    latitude <- get location "latitude" ;;
    longitude <- get location "longitude" ;;
    weather <- await (forecast latitude longitude) ;;
    current <- get weather "current" ;;
    weather_code <- get current "weather_code" ;;
    condition <- getWeatherCondition weather_code ;;
    name <- get location "name" ;;
    temperature_2m <- get current "temperature_2m" ;;
    temperature <- round temperature_2m ;;
    relative_humidity_2m <- get current "relative_humidity_2m" ;;
    humidity <- round relative_humidity_2m ;;
    wind_speed_10m <- get current "wind_speed_10m" ;;
    windSpeed <- round wind_speed_10m ;;
    apparent_temperature <- get current "apparent_temperature" ;;
    feelsLike <- round apparent_temperature ;;
    precipitation <- get current "precipitation" ;;
    Ok {| city := name; temperature := temperature; condition := condition;
          humidity := humidity; windSpeed := windSpeed; feelsLike := feelsLike;
          precipitation := precipitation |}.

(** [execute] (lines 33 to 90).  Whatever the [try] block throws is an
    [Error] (a rejection, a [TypeError] or the error of line 46), so
    the [catch] block always takes its first branch. *)
Definition execute (geocoding : string -> upstream)
    (forecast : value -> value -> upstream) (city : string) : result Response :=
  rethrow FAILURE_PREFIX (attempt geocoding forecast city).

End Weather.

(** ** Vocabulary of the further properties *)

Definition isReport (text : string) : bool := prefix "경로 요약: " text.

Definition nonEmpty (s : string) : bool := negb (String.eqb s EmptyString).

(** A text field read as a string, the empty one when it is missing. *)
Definition textOf (v : value) : string :=
  match v with
  | JStr s => s
  | _ => EmptyString
  end.

(** The line of the passed stations, for the names that are kept. *)
Definition stationsLine (names : list string) : string :=
  match names with
  | [] => EmptyString
  | _ => "    - 경유지: " ++ join arrow names ++ nl
  end.

(** The label of a leg in the route summary. *)
Definition summaryLabel (leg : value) : string :=
  if is_string (prop leg "mode") "WALK" then "도보"
  else if nonEmpty (textOf (prop leg "route")) then textOf (prop leg "route")
       else textOf (prop leg "mode").

(** The codes of the table of [getWeatherCondition]. *)
Definition weatherCodes : list Z :=
  [0; 1; 2; 3; 45; 48; 51; 53; 55; 61; 63; 65; 71; 73; 75; 77; 80; 81; 82; 85; 86; 95; 96; 99].

(** A byte below 128 that is not white space itself is no part of a
    white-space sequence. *)
Definition solid (c : ascii) : bool :=
  (N_of_ascii c <? 128)%N && negb (ws1 c).

(** ** Basic facts *)

Lemma get_ok (v : value) (k : string) :
  nullish v = false -> get v k = Ok (prop v k).
Proof. intros H. unfold get. now rewrite H. Qed.

Lemma get_ok_inv (v : value) (k : string) (x : value) :
  get v k = Ok x -> nullish v = false /\ x = prop v k.
Proof.
  unfold get. destruct (nullish v); intros H; [discriminate|].
  injection H as <-. now split.
Qed.

Lemma get_agree (v v' : value) (k : string) :
  nullish v = false -> nullish v' = false -> prop v' k = prop v k ->
  get v' k = get v k.
Proof. intros H H' E. now rewrite (get_ok _ _ H), (get_ok _ _ H'), E. Qed.

Lemma nullish_falsy (v : value) : nullish v = true -> truthy v = false.
Proof. destruct v; simpl; congruence. Qed.

Lemma isObject_not_nullish (v : value) : isObject v = true -> nullish v = false.
Proof. destruct v; simpl; congruence. Qed.

Lemma is_string_spec (v : value) (s : string) :
  is_string v s = true <-> v = JStr s.
Proof.
  destruct v; simpl; try (split; [discriminate|intros H; discriminate H]).
  rewrite String.eqb_eq. split; [now intros ->|congruence].
Qed.

Lemma bind_ok_inv {A B : Type} (r : result A) (k : A -> result B) (b : B) :
  bind r k = Ok b -> exists a, r = Ok a /\ k a = Ok b.
Proof. destruct r; simpl; intros H; try discriminate. now exists a. Qed.

Lemma mapM_ok {A B : Type} (f : A -> result B) (P : A -> bool) (Q : B -> Prop)
    (l : list A) :
  (forall x, P x = true -> exists y, f x = Ok y /\ Q y) ->
  forallb P l = true ->
  exists ys, mapM f l = Ok ys /\ Forall Q ys.
Proof.
  intros Hf. induction l as [|x l IH]; simpl; intros H.
  - exists []. split; [reflexivity|constructor].
  - apply andb_prop in H as [Hx Hl].
    destruct (Hf x Hx) as (y & -> & Hy).
    destruct (IH Hl) as (ys & -> & Hys).
    exists (y :: ys). split; [reflexivity|now constructor].
Qed.

Lemma mapMi_ok {A B : Type} (f : nat -> A -> result B) (P : A -> bool) (l : list A) :
  (forall i x, P x = true -> exists y, f i x = Ok y) ->
  forallb P l = true ->
  forall i, exists ys, mapMi f i l = Ok ys.
Proof.
  intros Hf. induction l as [|x l IH]; simpl; intros H i.
  - now exists [].
  - apply andb_prop in H as [Hx Hl].
    destruct (Hf i x Hx) as (y & ->).
    destruct (IH Hl (S i)) as (ys & ->).
    now exists (y :: ys).
Qed.

(** The entries that [map] returns are the entries of the legs, each at
    the place of its leg. *)
Lemma mapMi_nth {A B : Type} (f : nat -> A -> result B) (l : list A) :
  forall i ys k x,
    mapMi f i l = Ok ys ->
    nth_error l k = Some x ->
    exists y, f (i + k)%nat x = Ok y /\ nth_error ys k = Some y.
Proof.
  induction l as [|a l IH]; intros i ys k x H Hk.
  - destruct k; discriminate.
  - simpl in H.
    apply bind_ok_inv in H as (y & Hy & H).
    apply bind_ok_inv in H as (ys' & Hys & H).
    injection H as <-.
    destruct k as [|k]; simpl in Hk.
    + injection Hk as <-. exists y. now rewrite Nat.add_0_r.
    + destruct (IH (S i) ys' k x Hys Hk) as (z & Hz & Hn).
      exists z. split; [|exact Hn].
      now replace (i + S k)%nat with (S i + k)%nat by lia.
Qed.

Lemma oneLine_app (s t : string) :
  oneLine (s ++ t) = oneLine s && oneLine t.
Proof.
  induction s as [|c s IH]; simpl; [reflexivity|].
  now rewrite IH, andb_assoc.
Qed.



Lemma planOf_missing (data : value) :
  nullish data = true \/ nullish (optget data "metaData") = true ->
  planOf data = JUndefined.
Proof.
  unfold planOf. intros [H|H].
  - unfold optget at 2. rewrite H. reflexivity.
  - unfold optget at 1. now rewrite H.
Qed.

Lemma whenTruthy_inv {A : Type} (v : value) (f : value -> result A) (o : option A) :
  whenTruthy v f = Ok o ->
  (truthy v = false /\ o = None) \/ (truthy v = true /\ exists x, f v = Ok x /\ o = Some x).
Proof.
  unfold whenTruthy. destruct (truthy v).
  - intros H. apply bind_ok_inv in H as (x & Hx & H). injection H as <-.
    right. split; [reflexivity|]. now exists x.
  - intros H. injection H as <-. now left.
Qed.


Lemma whenTruthy_zero_absent {A : Type} (v v' : value) (f : value -> result A) :
  v = JNum 0 /\ v' = JUndefined \/ v' = v ->
  whenTruthy v' f = whenTruthy v f.
Proof. intros [ [-> ->] | -> ]; reflexivity. Qed.

Lemma readMetrics_not_nullish (best : value) (m : Metrics) :
  readMetrics best = Ok m -> nullish best = false.
Proof.
  unfold readMetrics. intros H.
  apply bind_ok_inv in H as (x & Hx & _).
  now apply get_ok_inv in Hx.
Qed.

Lemma readMetrics_inv (best : value) (m : Metrics) :
  readMetrics best = Ok m ->
  nullish best = false
  /\ whenTruthy (prop best "totalTime") roundMinutes = Ok (durationMin m)
  /\ whenTruthy (prop best "totalDistance") kilometres = Ok (distanceKm m)
  /\ whenTruthy (prop best "totalWalkTime") roundMinutes = Ok (walkTimeMin m)
  /\ transfers m = coalesce (prop best "transferCount") (JNum 0)
  /\ walkDistance m = coalesce (prop best "totalWalkDistance") (JNum 0)
  /\ fare m = coalesce (optget (optget (prop best "fare") "regular") "totalFare") (JNum 0).
Proof.
  intros H. pose proof (readMetrics_not_nullish _ _ H) as Hn.
  unfold readMetrics in H. rewrite !(get_ok _ _ Hn) in H. simpl bind in H.
  apply bind_ok_inv in H as (d & Hd & H).
  apply bind_ok_inv in H as (k & Hk & H).
  apply bind_ok_inv in H as (w & Hw & H).
  injection H as <-. simpl. repeat split; assumption.
Qed.

(** What a report is made of. *)
Lemma report_inv (best : value) (text : string) :
  report best = Ok text ->
  exists m stops metrics details,
    readMetrics best = Ok m
    /\ metricsBlock m = Ok metrics
    /\ text = "경로 요약: " ++ stops ++ nl ++ metrics ++ nl ++ "[상세 경유지]" ++ nl
              ++ join (nl ++ nl) details.
Proof.
  unfold report. intros H.
  apply bind_ok_inv in H as (m & Hm & H).
  apply bind_ok_inv in H as (bestLegs & _ & H).
  apply bind_ok_inv in H as (legs & _ & H).
  apply bind_ok_inv in H as (labels & _ & H).
  apply bind_ok_inv in H as (stops & _ & H).
  apply bind_ok_inv in H as (details & _ & H).
  apply bind_ok_inv in H as (metrics & Hmetrics & H).
  injection H as <-.
  now exists m, stops, metrics, details.
Qed.

(** ** binary64 division of safe integers *)

Lemma digits2_pos_bounds (p : positive) :
  2 ^ (Z.pos (digits2_pos p) - 1) <= Z.pos p < 2 ^ Z.pos (digits2_pos p).
Proof.
  induction p as [p IH|p IH|]; simpl digits2_pos.
  - rewrite Pos2Z.inj_succ.
    replace (Z.succ (Z.pos (digits2_pos p)) - 1) with (Z.succ (Z.pos (digits2_pos p) - 1)) by lia.
    rewrite !Z.pow_succ_r by lia. lia.
  - rewrite Pos2Z.inj_succ.
    replace (Z.succ (Z.pos (digits2_pos p)) - 1) with (Z.succ (Z.pos (digits2_pos p) - 1)) by lia.
    rewrite !Z.pow_succ_r by lia. lia.
  - simpl. lia.
Qed.

Lemma digits2_pos_unique (p : positive) (d : Z) :
  2 ^ (d - 1) <= Z.pos p < 2 ^ d -> Z.pos (digits2_pos p) = d.
Proof.
  intros [Hlo Hhi]. pose proof (digits2_pos_bounds p) as [Blo Bhi].
  set (D := Z.pos (digits2_pos p)) in *.
  assert (0 < d).
  { destruct (Z_lt_le_dec 0 d); [assumption|].
    assert (2 ^ d <= 2 ^ 0) by (destruct (Z.eq_dec d 0) as [->|]; [lia|rewrite Z.pow_neg_r by lia; simpl; lia]).
    simpl in *. lia. }
  assert (0 < D) by (unfold D; lia).
  destruct (Z.lt_trichotomy D d) as [Hlt|[Heq|Hgt]]; [|assumption|].
  - assert (2 ^ D <= 2 ^ (d - 1)) by (apply Z.pow_le_mono_r; lia). lia.
  - assert (2 ^ d <= 2 ^ (D - 1)) by (apply Z.pow_le_mono_r; lia). lia.
Qed.

Lemma iter_xO_mul (p k : positive) :
  Z.pos (Pos.iter xO p k) = Z.pos p * 2 ^ Z.pos k.
Proof.
  revert p. induction k using Pos.peano_ind; intros p.
  - simpl. lia.
  - rewrite Pos.iter_succ, Pos2Z.inj_succ, Z.pow_succ_r by lia.
    rewrite Pos2Z.inj_xO, IHk. lia.
Qed.

Lemma shr_fexp_0 (m e : Z) (l : location) :
  2 ^ 52 <= m < 2 ^ 53 -> -1074 <= e ->
  shr_fexp prec emax m e l = (shr_record_of_loc m l, e).
Proof.
  intros Hm He. destruct m as [|p|p]; try (simpl in Hm; lia).
  assert (Hd : Z.pos (digits2_pos p) = 53) by (apply digits2_pos_unique; simpl; lia).
  unfold shr_fexp, fexp, emin, Zdigits2. rewrite Hd.
  replace (Z.max (53 + e - prec) (3 - emax - prec) - e) with 0 by (unfold prec, emax; lia).
  reflexivity.
Qed.

Lemma shr_fexp_1 (m e : Z) (l : location) :
  2 ^ 53 <= m < 2 ^ 54 -> -1075 <= e ->
  shr_fexp prec emax m e l = (shr_1 (shr_record_of_loc m l), e + 1).
Proof.
  intros Hm He. destruct m as [|p|p]; try (simpl in Hm; lia).
  assert (Hd : Z.pos (digits2_pos p) = 54) by (apply digits2_pos_unique; simpl; lia).
  unfold shr_fexp, fexp, emin, Zdigits2. rewrite Hd.
  replace (Z.max (54 + e - prec) (3 - emax - prec) - e) with 1 by (unfold prec, emax; lia).
  reflexivity.
Qed.

Lemma shr_1_pos (m : Z) (r s : bool) :
  0 < m ->
  shr_1 {| shr_m := m; shr_r := r; shr_s := s |}
  = {| shr_m := m / 2; shr_r := Z.odd m; shr_s := r || s |}.
Proof.
  intros Hm. destruct m as [|p|p]; try lia.
  destruct p as [p|p|]; unfold shr_1.
  - f_equal. apply Z.div_unique with 1; lia.
  - f_equal. apply Z.div_unique with 0; lia.
  - reflexivity.
Qed.

Lemma new_location_spec (B r : Z) :
  0 < B -> 0 <= r < B ->
  new_location B r = if r =? 0 then loc_Exact else loc_Inexact (2 * r ?= B).
Proof.
  intros HB Hr. unfold new_location.
  destruct (Z.even B) eqn:Ev.
  - reflexivity.
  - unfold new_location_odd. destruct (r =? 0); [reflexivity|]. f_equal.
    assert (Hodd : Z.odd B = true) by (rewrite <- Z.negb_even, Ev; reflexivity).
    apply Z.odd_spec in Hodd as [c Hc].
    destruct (Z.compare_spec (2 * r + 1) B); destruct (Z.compare_spec (2 * r) B);
      try reflexivity; lia.
Qed.

Lemma finite_of_mantissa (s : bool) (m e : Z) :
  2 ^ 52 <= m < 2 ^ 53 -> e <= 971 ->
  exists p, Z.pos p = m /\
    match m with
    | 0 => S754_zero s
    | Z.pos p => if e <=? emax - prec then S754_finite s p e else S754_infinity s
    | Z.neg _ => S754_nan
    end = S754_finite s p e.
Proof.
  intros Hm He. destruct m as [|p|p]; try (simpl in Hm; lia).
  exists p. split; [reflexivity|].
  replace (e <=? emax - prec) with true; [reflexivity|].
  symmetry. apply Z.leb_le. unfold emax, prec. lia.
Qed.

(** The second half of [binary_round_aux]: a rounded mantissa between
    2^52 and 2^53, the upper bound included. *)
Lemma renormalize (s : bool) (m e : Z) :
  2 ^ 52 <= m <= 2 ^ 53 -> -1074 <= e <= 970 ->
  exists p t,
    (let '(mrs, e2) := shr_fexp prec emax m e loc_Exact in
     match shr_m mrs with
     | 0 => S754_zero s
     | Z.pos p => if e2 <=? emax - prec then S754_finite s p e2 else S754_infinity s
     | Z.neg _ => S754_nan
     end) = S754_finite s p (e + t)
    /\ 0 <= t <= 1 /\ 2 ^ 52 <= Z.pos p < 2 ^ 53 /\ Z.pos p * 2 ^ t = m.
Proof.
  intros Hm He.
  destruct (Z.eq_dec m (2 ^ 53)) as [->|Hne].
  - exists (4503599627370496%positive), 1. 
    rewrite shr_fexp_1 by (simpl; lia).
    replace (e + 1 <=? emax - prec) with true; [|symmetry; apply Z.leb_le; unfold emax, prec; lia].
    simpl. repeat split; lia.
  - rewrite shr_fexp_0 by lia.
    destruct (finite_of_mantissa s m e) as (p & Hp & E); [lia|lia|].
    exists p, 0. simpl shr_m. rewrite E, Z.add_0_r. repeat split; try lia.
Qed.

Lemma loc_of_record (m : Z) (l : location) :
  shr_m (shr_record_of_loc m l) = m
  /\ loc_of_shr_record (shr_record_of_loc m l) = l.
Proof. destruct l as [|[]]; split; reflexivity. Qed.

(** Rounding the quotient of [A] by [B] to an integer, to nearest. *)
Lemma round_nearest_even_near (A B : Z) :
  0 < B ->
  let m := round_nearest_even (A / B) (new_location B (A mod B)) in
  A / B <= m <= A / B + 1 /\ Z.abs (2 * B * m - 2 * A) <= B.
Proof.
  intros HB m. subst m.
  pose proof (Z.div_mod A B ltac:(lia)) as HA.
  pose proof (Z.mod_pos_bound A B HB) as Hr.
  rewrite new_location_spec by assumption.
  generalize dependent (A mod B). generalize dependent (A / B). intros q r HA Hr.
  unfold round_nearest_even.
  destruct (Z.eqb_spec r 0) as [E|E]; [nia|].
  destruct (Z.compare_spec (2 * r) B) as [C|C|C]; [destruct (Z.even q)| |]; nia.
Qed.

(** The same after one shift to the right: the quotient has one digit
    too many, and half of it is rounded. *)
Lemma round_shifted_near (A B : Z) :
  0 < B -> 0 < A / B ->
  let mrs := shr_1 (shr_record_of_loc (A / B) (new_location B (A mod B))) in
  let m := round_nearest_even (shr_m mrs) (loc_of_shr_record mrs) in
  A / B / 2 <= m <= A / B / 2 + 1 /\ Z.abs (2 * B * (m * 2) - 2 * A) <= B * 2.
Proof.
  intros HB Hq mrs m. subst m mrs.
  pose proof (Z.div_mod A B ltac:(lia)) as HA.
  pose proof (Z.mod_pos_bound A B HB) as Hr.
  rewrite new_location_spec by assumption.
  generalize dependent (A mod B). generalize dependent (A / B). intros q Hq r HA Hr.
  pose proof (Z.div_mod q 2 ltac:(lia)) as Hq2.
  pose proof (Z.mod_pos_bound q 2 ltac:(lia)) as Hr2.
  assert (Hodd : Z.odd q = (q mod 2 =? 1)).
  { rewrite Zmod_odd. destruct (Z.odd q); reflexivity. }
  assert (S : forall l, shr_1 (shr_record_of_loc q l)
                        = {| shr_m := q / 2; shr_r := Z.odd q;
                             shr_s := match l with loc_Exact => false | _ => true end |}).
  { intros [|[]]; unfold shr_record_of_loc; rewrite shr_1_pos by assumption; reflexivity. }
  rewrite S, Hodd. clear S Hodd.
  generalize dependent (q / 2). intros h Hq2.
  unfold round_nearest_even, loc_of_shr_record, shr_m.
  destruct (Z.eqb_spec r 0) as [E|E];
    destruct (Z.eqb_spec (q mod 2) 1) as [O|O];
    try destruct (Z.even h); nia.
Qed.

(** [binary_round_aux] on a quotient of 53 or 54 digits: a mantissa of 53
    digits, at most two binades up, within half a unit in the last place
    of [A / B]. *)
Lemma binary_round_aux_near (s : bool) (A B e : Z) :
  0 < B -> 2 ^ 52 <= A / B < 2 ^ 54 -> -1074 <= e <= 960 ->
  exists p t,
    binary_round_aux prec emax s (A / B) e (new_location B (A mod B))
    = S754_finite s p (e + t)
    /\ 0 <= t <= 2
    /\ 2 ^ 52 <= Z.pos p < 2 ^ 53
    /\ Z.abs (2 * B * (Z.pos p * 2 ^ t) - 2 * A) <= B * 2 ^ t.
Proof.
  intros HB Hq He. unfold binary_round_aux.
  destruct (Z_lt_le_dec (A / B) (2 ^ 53)) as [Hlt|Hge].
  - rewrite shr_fexp_0 by lia.
    destruct (loc_of_record (A / B) (new_location B (A mod B))) as [-> ->].
    destruct (round_nearest_even_near A B HB) as [Hm Hn].
    destruct (renormalize s (round_nearest_even (A / B) (new_location B (A mod B))) e)
      as (p & t & E & Ht & Hp & Hpm); [lia|lia|].
    rewrite E. exists p, t. rewrite Hpm.
    repeat split; try lia.
    assert (1 <= 2 ^ t) by (assert (t = 0 \/ t = 1) as [->| ->] by lia; simpl; lia).
    nia.
  - rewrite shr_fexp_1 by lia.
    destruct (round_shifted_near A B HB ltac:(lia)) as [Hm Hn].
    assert (Hh : 2 ^ 52 <= A / B / 2 < 2 ^ 53).
    { pose proof (Z.div_mod (A / B) 2 ltac:(lia)).
      pose proof (Z.mod_pos_bound (A / B) 2 ltac:(lia)).
      change (2 ^ 52) with 4503599627370496. change (2 ^ 53) with 9007199254740992.
      change (2 ^ 53) with 9007199254740992 in Hge.
      change (2 ^ 54) with 18014398509481984 in Hq. lia. }
    set (mrs := shr_1 (shr_record_of_loc (A / B) (new_location B (A mod B)))) in *.
    destruct (renormalize s (round_nearest_even (shr_m mrs) (loc_of_shr_record mrs)) (e + 1))
      as (p & t & E & Ht & Hp & Hpm); [lia|lia|].
    rewrite E. exists p, (1 + t). rewrite Z.add_assoc.
    repeat split; try lia.
    rewrite <- Hpm in Hn.
    assert (t = 0 \/ t = 1) as [->| ->] by lia; simpl Z.pow in *; lia.
Qed.

Lemma div_eucl_div_mod (A B : Z) : Z.div_eucl A B = (A / B, A mod B).
Proof. unfold Z.div, Z.modulo. now destruct (Z.div_eucl A B). Qed.

(** The quotient of two binary64 numbers with full mantissas. *)
Lemma SFdiv_near (s1 s2 : bool) (m1 m2 : positive) (e1 e2 : Z) :
  2 ^ 52 <= Z.pos m1 < 2 ^ 53 ->
  2 ^ 52 <= Z.pos m2 < 2 ^ 53 ->
  -1021 <= e1 - e2 <= 1013 ->
  exists p t,
    SFdiv prec emax (S754_finite s1 m1 e1) (S754_finite s2 m2 e2)
    = S754_finite (xorb s1 s2) p (e1 - e2 - 53 + t)
    /\ 0 <= t <= 2
    /\ 2 ^ 52 <= Z.pos p < 2 ^ 53
    /\ Z.abs (2 * Z.pos m2 * (Z.pos p * 2 ^ t) - 2 * (Z.pos m1 * 2 ^ 53))
       <= Z.pos m2 * 2 ^ t.
Proof.
  intros H1 H2 He.
  assert (D1 : Z.pos (digits2_pos m1) = 53) by (apply digits2_pos_unique; simpl; lia).
  assert (D2 : Z.pos (digits2_pos m2) = 53) by (apply digits2_pos_unique; simpl; lia).
  unfold SFdiv, SFdiv_core_binary, Zdigits2. rewrite D1, D2.
  replace (Z.min (fexp prec emax (53 + e1 - (53 + e2))) (e1 - e2)) with (e1 - e2 - 53)
    by (unfold fexp, emin, prec, emax; lia).
  replace (e1 - e2 - (e1 - e2 - 53)) with 53 by lia.
  cbv iota. rewrite Z.shiftl_mul_pow2 by lia.
  rewrite div_eucl_div_mod.
  apply binary_round_aux_near; [lia| |lia].
  split.
  - apply Z.div_le_lower_bound; [lia|].
    change (2 ^ 52) with 4503599627370496 in *. change (2 ^ 53) with 9007199254740992 in *. lia.
  - apply Z.div_lt_upper_bound; [lia|].
    change (2 ^ 52) with 4503599627370496 in *. change (2 ^ 53) with 9007199254740992 in *.
    change (2 ^ 54) with 18014398509481984. lia.
Qed.

(** A mantissa of 53 digits with an exponent in range is left as it is. *)
Lemma binary_round_aux_canonical (s : bool) (m : positive) (e : Z) :
  2 ^ 52 <= Z.pos m < 2 ^ 53 -> -1074 <= e <= 971 ->
  binary_round_aux prec emax s (Z.pos m) e loc_Exact = S754_finite s m e.
Proof.
  intros Hm He. unfold binary_round_aux.
  rewrite shr_fexp_0 by lia.
  cbn [shr_record_of_loc shr_m loc_of_shr_record round_nearest_even].
  rewrite shr_fexp_0 by lia.
  cbn [shr_record_of_loc shr_m].
  replace (e <=? emax - prec) with true; [reflexivity|].
  symmetry. apply Z.leb_le. unfold emax, prec. lia.
Qed.

(** An integer within the safe range is a binary64 number: its mantissa
    is the integer shifted up to 53 digits. *)
Lemma binary_round_integer (s : bool) (p : positive) :
  Z.pos p < 2 ^ 53 ->
  exists m e,
    binary_round prec emax s p 0 = S754_finite s m e
    /\ -52 <= e <= 0
    /\ 2 ^ 52 <= Z.pos m < 2 ^ 53
    /\ Z.pos m = Z.pos p * 2 ^ (- e).
Proof.
  intros Hp.
  pose proof (digits2_pos_bounds p) as [Blo Bhi].
  set (d := Z.pos (digits2_pos p)) in *.
  assert (Hd : 1 <= d <= 53).
  { split; [unfold d; lia|].
    destruct (Z_lt_le_dec 53 d) as [H|H]; [|assumption].
    assert (2 ^ 53 <= 2 ^ (d - 1)) by (apply Z.pow_le_mono_r; lia). lia. }
  unfold binary_round. fold d.
  replace (fexp prec emax (d + 0)) with (d - 53) by (unfold fexp, emin, prec, emax; lia).
  unfold shl_align.
  destruct (Z.eq_dec d 53) as [E|E].
  - rewrite E. simpl Z.sub. cbv iota.
    exists p, 0. rewrite binary_round_aux_canonical; [|rewrite E in Blo; simpl in Blo |- *; lia|lia].
    rewrite E in Blo. simpl in *. repeat split; lia.
  - destruct (d - 53 - 0) as [|k|k] eqn:K; try lia.
    assert (Hm : Z.pos (Pos.iter xO p k) = Z.pos p * 2 ^ (53 - d)).
    { rewrite iter_xO_mul. f_equal. f_equal. lia. }
    assert (Hpow : 2 ^ (53 - d) * 2 ^ (d - 1) = 2 ^ 52).
    { rewrite <- Z.pow_add_r by lia. f_equal. lia. }
    assert (Hpow' : 2 ^ (53 - d) * 2 ^ d = 2 ^ 53).
    { rewrite <- Z.pow_add_r by lia. f_equal. lia. }
    assert (0 < 2 ^ (53 - d)) by (apply Z.pow_pos_nonneg; lia).
    assert (Hrange : 2 ^ 52 <= Z.pos (Pos.iter xO p k) < 2 ^ 53).
    { rewrite Hm, <- Hpow, <- Hpow'. nia. }
    exists (Pos.iter xO p k), (d - 53).
    rewrite binary_round_aux_canonical by (try assumption; lia).
    repeat split; try lia.
    rewrite Hm. f_equal. f_equal. lia.
Qed.

(** The quotient of a safe integer by a safe integer from 8 on: a
    negative exponent, a mantissa [p] of 53 digits, and [p * 2^e] within
    half a unit in the last place of the exact quotient. *)
Lemma divide_near (n b : Z) :
  n <> 0 -> Z.abs n < 2 ^ 53 -> 8 <= b < 2 ^ 53 ->
  exists p e,
    divide n b = S754_finite (n <? 0) p e
    /\ e < 0
    /\ 2 ^ 52 <= Z.pos p < 2 ^ 53
    /\ Z.abs (2 * b * Z.pos p - 2 * Z.abs n * 2 ^ (- e)) <= b.
Proof.
  intros Hn0 Hn Hb.
  assert (Hdiv : forall s pn,
             Z.pos pn = Z.abs n ->
             exists p e,
               SFdiv prec emax (binary_round prec emax s pn 0) (toDouble b)
               = S754_finite s p e
               /\ e < 0 /\ 2 ^ 52 <= Z.pos p < 2 ^ 53
               /\ Z.abs (2 * b * Z.pos p - 2 * Z.abs n * 2 ^ (- e)) <= b).
  { intros s pn Hpn.
    destruct b as [|pb|pb]; try lia.
    destruct (binary_round_integer s pn) as (m1 & e1 & E1 & He1 & Hm1 & Hv1); [lia|].
    destruct (binary_round_integer false pb) as (m2 & e2 & E2 & He2 & Hm2 & Hv2); [lia|].
    unfold toDouble, binary_normalize. rewrite E1, E2.
    assert (He2' : -49 <= e2).
    { destruct (Z_lt_le_dec e2 (-49)) as [H|H]; [|assumption].
      assert (2 ^ 50 <= 2 ^ (- e2)) by (apply Z.pow_le_mono_r; lia).
      change (2 ^ 53) with (8 * 2 ^ 50) in Hm2. nia. }
    destruct (SFdiv_near s false m1 m2 e1 e2) as (p & t & E & Ht & Hp & Hnear);
      [assumption|assumption|lia|].
    rewrite xorb_false_r in E. rewrite E.
    exists p, (e1 - e2 - 53 + t). repeat split; try lia.
    set (X := 2 ^ (- (e1 - e2 - 53 + t))).
    set (K := 2 ^ (- e2) * 2 ^ t).
    assert (HK : 0 < K).
    { unfold K. apply Z.mul_pos_pos; apply Z.pow_pos_nonneg; lia. }
    assert (HX : X * K = 2 ^ (- e1) * 2 ^ 53).
    { unfold X, K. rewrite <- !Z.pow_add_r by lia. f_equal. lia. }
    rewrite Hv1, Hv2, Hpn in Hnear.
    assert (Hl : 2 * (Z.pos pb * 2 ^ (- e2)) * (Z.pos p * 2 ^ t)
                 - 2 * (Z.abs n * 2 ^ (- e1) * 2 ^ 53)
                 = K * (2 * Z.pos pb * Z.pos p - 2 * Z.abs n * X)).
    { replace (Z.abs n * 2 ^ (- e1) * 2 ^ 53) with (Z.abs n * (X * K))
        by (rewrite HX; ring).
      unfold K. ring. }
    assert (Hr : Z.pos pb * 2 ^ (- e2) * 2 ^ t = K * Z.pos pb) by (unfold K; ring).
    rewrite Hl, Hr, Z.abs_mul, (Z.abs_eq K) in Hnear by lia.
    now apply Z.mul_le_mono_pos_l in Hnear. }
  unfold divide at 1. destruct n as [|pn|pn]; [lia| |].
  - apply (Hdiv false pn). reflexivity.
  - apply (Hdiv true pn). reflexivity.
Qed.

(** A power of two that exceeds [c] has an exponent above [Z.log2 c]. *)
Lemma pow2_above (E c k : Z) :
  0 <= E -> 2 ^ k <= c -> c < 2 ^ E -> 2 ^ (k + 1) <= 2 ^ E.
Proof.
  intros HE Hk Hc.
  destruct (Z_lt_le_dec k 0) as [Hneg|Hpos].
  - apply Z.pow_le_mono_r; lia.
  - destruct (Z_lt_le_dec E (k + 1)) as [H|H].
    + assert (2 ^ E <= 2 ^ k) by (apply Z.pow_le_mono_r; lia). lia.
    + apply Z.pow_le_mono_r; lia.
Qed.

(** [Math.round(n / 60)] is [n / 60] rounded to the nearest integer, a
    half upwards. *)
Lemma round_divide_60 (n : Z) :
  Z.abs n < 2 ^ 53 -> Math_round (divide n 60) = Some ((n + 30) / 60).
Proof.
  intros Hn. destruct (Z.eq_dec n 0) as [->|Hn0]; [reflexivity|].
  destruct (divide_near n 60 Hn0 Hn ltac:(simpl; lia)) as (p & e & E & He & Hp & Hnear).
  rewrite E. unfold Math_round.
  replace (0 <=? e) with false by (symmetry; apply Z.leb_gt; lia).
  f_equal.
  set (v := if n <? 0 then Z.neg p else Z.pos p).
  assert (Hv : Z.abs (2 * 60 * v - 2 * n * 2 ^ (- e)) <= 60).
  { unfold v. destruct (Z.ltb_spec n 0).
    - rewrite (Z.abs_neq n) in Hnear by lia. change (Z.neg p) with (- Z.pos p). lia.
    - rewrite (Z.abs_eq n) in Hnear by lia. lia. }
  assert (HP : 2 ^ 5 <= 2 ^ (- e)).
  { apply (pow2_above (- e) 29 4); [lia|simpl; lia|].
    change (2 ^ 52) with 4503599627370496 in *.
    change (2 ^ 53) with 9007199254740992 in *. nia. }
  replace (- e) with (1 + (- e - 1)) in * by lia.
  replace (1 - e) with (1 + (1 + (- e - 1))) by lia.
  rewrite !(Z.pow_add_r 2 1) in * by lia.
  change (2 ^ 1) with 2 in *. change (2 ^ 5) with 32 in *.
  generalize dependent (2 ^ (- e - 1)). intros P' Hnear Hv HP.
  clear Hnear E Hp He.
  pose proof (Z.div_mod (n + 30) 60 ltac:(lia)) as Hk.
  pose proof (Z.mod_pos_bound (n + 30) 60 ltac:(lia)) as Hr.
  generalize dependent ((n + 30) mod 60). generalize dependent ((n + 30) / 60).
  intros k r Hk Hr.
  symmetry. apply Z.div_unique with (2 * v + 2 * P' - 2 * (2 * P') * k); nia.
Qed.

(** [(n / 1000).toFixed(1)] shows [q / 10], where [q] is a number of
    tenths nearest to [|n| / 100]. *)
Lemma toFixed1_divide_1000 (n : Z) :
  n <> 0 -> Z.abs n < 2 ^ 53 ->
  exists q,
    toFixed1 (divide n 1000)
    = Some ((if n <? 0 then "-" else EmptyString)
              ++ decimal (q / 10) ++ "." ++ decimal (q mod 10))
    /\ 0 <= q
    /\ Z.abs (100 * q - Z.abs n) <= 50.
Proof.
  intros Hn0 Hn.
  destruct (divide_near n 1000 Hn0 Hn ltac:(simpl; lia)) as (p & e & E & He & Hp & Hnear).
  rewrite E. unfold toFixed1.
  replace (0 <=? e) with false by (symmetry; apply Z.leb_gt; lia).
  exists ((20 * Z.pos p + 2 ^ (- e)) / 2 ^ (1 - e)).
  split; [reflexivity|].
  assert (HP : 2 ^ 9 <= 2 ^ (- e)).
  { apply (pow2_above (- e) 499 8); [lia|simpl; lia|].
    change (2 ^ 52) with 4503599627370496 in *.
    change (2 ^ 53) with 9007199254740992 in *. nia. }
  replace (1 - e) with (1 + - e) by lia.
  rewrite (Z.pow_add_r 2 1) by lia.
  change (2 ^ 1) with 2. change (2 ^ 9) with 512 in HP.
  generalize dependent (2 ^ (- e)). intros P Hnear HP.
  generalize dependent (Z.abs n). intros N _ Hnear.
  clear E He Hp Hn0.
  pose proof (Z.div_mod (20 * Z.pos p + P) (2 * P) ltac:(lia)) as Hq.
  pose proof (Z.mod_pos_bound (20 * Z.pos p + P) (2 * P) ltac:(lia)) as Hr.
  generalize dependent ((20 * Z.pos p + P) mod (2 * P)).
  generalize dependent ((20 * Z.pos p + P) / (2 * P)).
  intros q r Hq Hr.
  split; nia.
Qed.


Lemma safe_bound (n : Z) : safe n = true -> Z.abs n < 2 ^ 53.
Proof.
  unfold safe, MAX_SAFE_INTEGER. intros H. apply Z.leb_le in H.
  change (2 ^ 53) with 9007199254740992. lia.
Qed.

Lemma roundMinutes_safe (n : Z) :
  safe n = true -> roundMinutes (JNum n) = Ok ((n + 30) / 60).
Proof.
  intros H. unfold roundMinutes, ToNumber. rewrite H. simpl bind.
  now rewrite (round_divide_60 n (safe_bound n H)).
Qed.

Lemma nearest_minute (n : Z) :
  60 * ((n + 30) / 60) - 30 <= n < 60 * ((n + 30) / 60) + 30.
Proof.
  pose proof (Z.div_mod (n + 30) 60 ltac:(lia)).
  pose proof (Z.mod_pos_bound (n + 30) 60 ltac:(lia)). lia.
Qed.

Lemma safe_minutes (n : Z) : safe n = true -> safe ((n + 30) / 60) = true.
Proof.
  unfold safe, MAX_SAFE_INTEGER. intros H. apply Z.leb_le in H. apply Z.leb_le.
  pose proof (nearest_minute n). lia.
Qed.



Lemma whenTruthy_number {A : Type} (n : Z) (f : value -> result A) (o : option A) :
  n <> 0 -> whenTruthy (JNum n) f = Ok o -> exists x, f (JNum n) = Ok x /\ o = Some x.
Proof.
  intros Hn H. apply whenTruthy_inv in H as [[H _]|[_ H]]; [|exact H].
  simpl in H. apply Z.eqb_neq in Hn. rewrite Hn in H. discriminate.
Qed.

Lemma roundMinutes_inv (n r : Z) :
  roundMinutes (JNum n) = Ok r -> safe n = true /\ r = (n + 30) / 60.
Proof.
  intros H. destruct (safe n) eqn:Hs.
  - rewrite (roundMinutes_safe n Hs) in H. injection H as <-. now split.
  - unfold roundMinutes, ToNumber in H. rewrite Hs in H. discriminate.
Qed.




(** ** Itineraries of the expected shape are formatted *)

Lemma text_ToString (v : value) :
  absentOr isText v = true ->
  exists s, ToString v = Ok s /\ (v = JUndefined -> s = "undefined").
Proof.
  unfold absentOr. destruct v; simpl; try discriminate; intros _.
  - now exists "undefined".
  - exists s. split; [reflexivity|discriminate].
Qed.

Lemma count_ToString (v : value) :
  absentOr isCount v = true ->
  exists s, ToString v = Ok s /\ (v = JUndefined -> s = "undefined").
Proof.
  unfold absentOr. destruct v; simpl; try discriminate; intros H.
  - now exists "undefined".
  - exists (decimal n). unfold NumberToString. rewrite H. split; [reflexivity|discriminate].
Qed.

Lemma count_cases (v : value) :
  isCount v = true -> exists n, v = JNum n /\ safe n = true.
Proof. destruct v; simpl; try discriminate. intros H. now exists n. Qed.

Lemma scalar_labelled (label : string) (v : value) :
  absentOr (fun t => isText t || isCount t) v = true ->
  exists s, labelled label v = Ok s /\ (v = JUndefined -> s = EmptyString).
Proof.
  unfold labelled, absentOr. destruct v; simpl; try discriminate; intros H.
  - now exists EmptyString.
  - unfold NumberToString. rewrite H. destruct (negb (n =? 0)); simpl.
    + eexists. split; [reflexivity|discriminate].
    + exists EmptyString. split; [reflexivity|discriminate].
  - destruct (negb (String.eqb s EmptyString)); simpl.
    + eexists. split; [reflexivity|discriminate].
    + exists EmptyString. split; [reflexivity|discriminate].
Qed.

Lemma text_labelled (label : string) (v : value) :
  absentOr isText v = true ->
  exists s, labelled label v = Ok s /\ (v = JUndefined -> s = EmptyString).
Proof.
  intros H. apply scalar_labelled.
  unfold absentOr in *. apply orb_prop in H as [H|H]; rewrite H; simpl;
    [reflexivity|apply orb_true_r].
Qed.

Lemma endpoint_ok (leg : value) (k label : string) :
  nullish leg = false ->
  absentOr namedShape (prop leg k) = true ->
  exists v s, endpoint leg k = Ok v /\ labelled label v = Ok s
              /\ (prop leg k = JUndefined -> s = EmptyString).
Proof.
  intros Hleg H. unfold endpoint. rewrite (get_ok _ _ Hleg). simpl bind.
  destruct (prop leg k) as [| | | | |?|fields] eqn:E; try discriminate H.
  - exists (JStr EmptyString), EmptyString. now repeat split.
  - unfold absentOr, namedShape in H. simpl in H.
    unfold optget. simpl nullish. cbv iota. simpl prop.
    destruct (lookup "name" fields) as [| | | |s| |]; try discriminate H.
    + exists (JStr EmptyString), EmptyString. now repeat split.
    + simpl truthy. destruct (String.eqb s EmptyString) eqn:Es; simpl.
      * exists (JStr EmptyString), EmptyString. now repeat split.
      * exists (JStr s). unfold labelled. simpl truthy. rewrite Es. simpl.
        eexists. split; [reflexivity|]. split; [reflexivity|discriminate].
Qed.

Lemma sectionMinutes_ok (leg : value) :
  nullish leg = false ->
  absentOr isCount (prop leg "sectionTime") = true ->
  exists m, sectionMinutes leg = Ok m
            /\ (prop leg "sectionTime" = JUndefined -> m = "0").
Proof.
  intros Hleg H. unfold sectionMinutes. rewrite (get_ok _ _ Hleg). simpl bind.
  destruct (prop leg "sectionTime") as [| | |n| | |]; try discriminate H.
  - now exists "0".
  - unfold absentOr in H. simpl in H. unfold or_else. simpl truthy.
    destruct (negb (n =? 0)).
    + rewrite (roundMinutes_safe n H). simpl bind.
      unfold NumberToString. rewrite (safe_minutes n H).
      eexists. split; [reflexivity|discriminate].
    + exists "0". split; [reflexivity|discriminate].
Qed.

Lemma stepLine_ok (step : value) :
  stepShape step = true -> exists s, stepLine step = Ok s /\ True.
Proof.
  unfold stepShape. intros H. apply andb_prop in H as [Ho Hd].
  unfold stepLine. rewrite (get_ok _ _ (isObject_not_nullish _ Ho)). simpl bind.
  destruct (prop step "description") as [| | | |s| |]; try discriminate Hd.
  - now exists "    · ".
  - unfold or_else. simpl truthy.
    destruct (negb (String.eqb s EmptyString)); simpl; eexists; split; reflexivity || exact I.
Qed.

Lemma walkSteps_ok (leg : value) :
  nullish leg = false ->
  absentOr (arrayOfShape stepShape) (prop leg "steps") = true ->
  exists w, walkSteps leg = Ok w /\ (prop leg "steps" = JUndefined -> w = EmptyString).
Proof.
  intros Hleg H. unfold walkSteps. rewrite (get_ok _ _ Hleg). simpl bind.
  destruct (prop leg "steps") as [| | | | |items|]; try discriminate H.
  - now exists EmptyString.
  - unfold absentOr in H. simpl in H.
    destruct (mapM_ok stepLine stepShape (fun _ => True) items stepLine_ok H)
      as (ls & -> & _).
    eexists. split; [reflexivity|discriminate].
Qed.

Lemma laneLines_ok (leg : value) :
  nullish leg = false ->
  absentOr (arrayOfShape laneShape) (prop leg "Lane") = true ->
  exists l, laneLines leg = Ok l /\ (prop leg "Lane" = JUndefined -> l = EmptyString).
Proof.
  intros Hleg H. unfold laneLines. rewrite (get_ok _ _ Hleg). simpl bind.
  destruct (prop leg "Lane") as [| | | | |items|]; try discriminate H.
  - now exists EmptyString.
  - destruct items as [|lane rest].
    + exists EmptyString. split; [reflexivity|discriminate].
    + unfold absentOr in H. simpl in H. apply andb_prop in H as [Hlane _].
      unfold laneShape in Hlane.
      apply andb_prop in Hlane as [Hlane Hty]. apply andb_prop in Hlane as [Ho Hr].
      pose proof (isObject_not_nullish _ Ho) as Hn.
      rewrite !(get_ok _ _ Hn). simpl bind.
      destruct (text_labelled "노선" _ Hr) as (r & -> & _). simpl bind.
      destruct (scalar_labelled "노선타입" _ Hty) as (t & -> & _). simpl bind.
      unfold serviceLine. rewrite (get_ok _ _ Hn). simpl bind.
      destruct (is_undefined (prop lane "service")); simpl;
        eexists; (split; [reflexivity|discriminate]).
Qed.

Lemma stationName_ok (station : value) :
  stationShape station = true ->
  exists name, get station "stationName" = Ok name /\ absentOr isText name = true.
Proof.
  unfold stationShape. intros H. apply andb_prop in H as [Ho Hn].
  rewrite (get_ok _ _ (isObject_not_nullish _ Ho)). now eexists.
Qed.

Lemma joinValues_text (sep : string) (l : list value) :
  Forall (fun v => absentOr isText v = true) l ->
  exists s, joinValues sep l = Ok s.
Proof.
  intros H. unfold joinValues.
  assert (E : exists parts,
             mapM (fun x => if nullish x then Ok EmptyString else ToString x) l = Ok parts).
  { induction H as [|v l Hv _ IH]; simpl.
    - now exists [].
    - destruct IH as (parts & ->).
      destruct v; try discriminate Hv; simpl; eexists; reflexivity. }
  destruct E as (parts & ->). simpl. now eexists.
Qed.

Lemma passedStations_ok (leg : value) :
  nullish leg = false ->
  absentOr stopListShape (prop leg "passStopList") = true ->
  exists p, passedStations leg = Ok p
            /\ (prop leg "passStopList" = JUndefined -> p = EmptyString).
Proof.
  intros Hleg H. unfold passedStations. rewrite (get_ok _ _ Hleg). simpl bind.
  destruct (prop leg "passStopList") as [| | | | | |fields]; try discriminate H.
  - now exists EmptyString.
  - simpl truthy. cbv iota. simpl prop.
    unfold absentOr, stopListShape in H. simpl in H.
    destruct (lookup "stationList" fields) as [| | | | |stationList|]; try discriminate H;
      try (exists EmptyString; split; [reflexivity|discriminate]).
    simpl in H.
    destruct (mapM_ok (fun station => get station "stationName") stationShape
                (fun name => absentOr isText name = true) stationList stationName_ok H)
      as (names & -> & Hnames).
    simpl bind.
    assert (Hf : Forall (fun v => absentOr isText v = true) (filter truthy names)).
    { apply Forall_forall. intros v Hv. apply filter_In in Hv as [Hv _].
      now apply (proj1 (Forall_forall _ _) Hnames). }
    destruct (filter truthy names) as [|v stations] eqn:E.
    + exists EmptyString. split; [reflexivity|discriminate].
    + destruct (joinValues_text arrow _ Hf) as (j & ->). simpl.
      eexists. split; [reflexivity|discriminate].
Qed.

Lemma routeLabel_ok (leg : value) :
  nullish leg = false ->
  absentOr isText (prop leg "route") = true ->
  exists r, routeLabel leg = Ok r /\ (prop leg "route" = JUndefined -> r = EmptyString).
Proof.
  intros Hleg H. unfold routeLabel. rewrite (get_ok _ _ Hleg). simpl bind.
  destruct (prop leg "route") as [| | | |s| |]; try discriminate H.
  - now exists EmptyString.
  - simpl truthy. destruct (negb (String.eqb s EmptyString)); simpl;
      eexists; (split; [reflexivity|discriminate]).
Qed.

Lemma legShape_inv (leg : value) :
  legShape leg = true ->
  nullish leg = false
  /\ absentOr isText (prop leg "mode") = true
  /\ absentOr isText (prop leg "route") = true
  /\ absentOr isCount (prop leg "distance") = true
  /\ absentOr isCount (prop leg "sectionTime") = true
  /\ absentOr namedShape (prop leg "start") = true
  /\ absentOr namedShape (prop leg "end") = true
  /\ absentOr (arrayOfShape stepShape) (prop leg "steps") = true
  /\ absentOr (arrayOfShape laneShape) (prop leg "Lane") = true
  /\ absentOr stopListShape (prop leg "passStopList") = true.
Proof.
  unfold legShape. intros H.
  repeat (apply andb_prop in H as [H ?]).
  apply isObject_not_nullish in H. repeat split; assumption.
Qed.

Lemma stopLabel_ok (leg : value) :
  legShape leg = true ->
  exists label, stopLabel leg = Ok label /\ absentOr isText label = true.
Proof.
  intros H. destruct (legShape_inv leg H) as (Hleg & Hmode & Hroute & _).
  unfold stopLabel. rewrite !(get_ok _ _ Hleg). simpl bind.
  destruct (is_string (prop leg "mode") "WALK"); [now eexists|].
  destruct (truthy (prop leg "route")); now eexists.
Qed.

Lemma legDetail_walk (idx : nat) (leg : value) :
  legShape leg = true ->
  prop leg "mode" = JStr "WALK" ->
  exists d m s e w,
    legDetail idx leg
    = Ok (trim (legHead idx
                  ++ "도보 (" ++ d ++ "m, 약 " ++ m ++ "분)" ++ nl ++ s ++ e ++ w))
    /\ (prop leg "distance" = JUndefined -> d = "undefined")
    /\ (prop leg "sectionTime" = JUndefined -> m = "0")
    /\ (prop leg "start" = JUndefined -> s = EmptyString)
    /\ (prop leg "end" = JUndefined -> e = EmptyString)
    /\ (prop leg "steps" = JUndefined -> w = EmptyString).
Proof.
  intros H Hwalk.
  destruct (legShape_inv leg H)
    as (Hleg & _ & _ & Hdist & Htime & Hstart & Hend & Hsteps & _).
  destruct (count_ToString _ Hdist) as (d & Ed & Hd).
  destruct (sectionMinutes_ok leg Hleg Htime) as (m & Em & Hm).
  destruct (endpoint_ok leg "start" "출발" Hleg Hstart) as (vs & s & Evs & Es & Hs).
  destruct (endpoint_ok leg "end" "도착" Hleg Hend) as (ve & e & Eve & Ee & He).
  destruct (walkSteps_ok leg Hleg Hsteps) as (w & Ew & Hw).
  exists d, m, s, e, w.
  split; [|now repeat split].
  unfold legDetail. rewrite Evs, Eve. simpl bind.
  rewrite !(get_ok _ _ Hleg), Hwalk. simpl bind. simpl is_string. cbv iota.
  rewrite Ed. simpl bind. rewrite Em. simpl bind.
  rewrite Es. simpl bind. rewrite Ee. simpl bind. rewrite Ew. reflexivity.
Qed.

Lemma legDetail_transit (idx : nat) (leg : value) :
  legShape leg = true ->
  prop leg "mode" <> JStr "WALK" ->
  exists md r d m s e l p,
    legDetail idx leg
    = Ok (trim (legHead idx
                  ++ md ++ r ++ " - " ++ d ++ "m, 약 " ++ m ++ "분" ++ nl
                  ++ s ++ e ++ l ++ p))
    /\ (prop leg "mode" = JUndefined -> md = "undefined")
    /\ (prop leg "route" = JUndefined -> r = EmptyString)
    /\ (prop leg "distance" = JUndefined -> d = "undefined")
    /\ (prop leg "sectionTime" = JUndefined -> m = "0")
    /\ (prop leg "start" = JUndefined -> s = EmptyString)
    /\ (prop leg "end" = JUndefined -> e = EmptyString)
    /\ (prop leg "Lane" = JUndefined -> l = EmptyString)
    /\ (prop leg "passStopList" = JUndefined -> p = EmptyString).
Proof.
  intros H Hnot.
  destruct (legShape_inv leg H)
    as (Hleg & Hmode & Hroute & Hdist & Htime & Hstart & Hend & _ & HLane & Hpsl).
  assert (Hno : is_string (prop leg "mode") "WALK" = false).
  { destruct (is_string (prop leg "mode") "WALK") eqn:E; [|reflexivity].
    apply is_string_spec in E. contradiction. }
  destruct (count_ToString _ Hdist) as (d & Ed & Hd).
  destruct (sectionMinutes_ok leg Hleg Htime) as (m & Em & Hm).
  destruct (endpoint_ok leg "start" "승차" Hleg Hstart) as (vs & s & Evs & Es & Hs).
  destruct (endpoint_ok leg "end" "하차" Hleg Hend) as (ve & e & Eve & Ee & He).
  destruct (text_ToString _ Hmode) as (md & Emd & Hmd).
  destruct (routeLabel_ok leg Hleg Hroute) as (r & Er & Hr).
  destruct (laneLines_ok leg Hleg HLane) as (l & El & Hl).
  destruct (passedStations_ok leg Hleg Hpsl) as (p & Ep & Hp).
  exists md, r, d, m, s, e, l, p.
  split; [|now repeat split].
  unfold legDetail. rewrite Evs, Eve. simpl bind.
  rewrite !(get_ok _ _ Hleg). simpl bind. rewrite Hno, Emd. simpl bind.
  rewrite Er. simpl bind. rewrite Ed. simpl bind. rewrite Em. simpl bind.
  rewrite Es. simpl bind. rewrite Ee. simpl bind. rewrite El. simpl bind.
  rewrite Ep. reflexivity.
Qed.

Lemma legDetail_ok (idx : nat) (leg : value) :
  legShape leg = true ->
  exists body, legDetail idx leg = Ok (trim (legHead idx ++ body)).
Proof.
  intros H.
  destruct (is_string (prop leg "mode") "WALK") eqn:E.
  - apply is_string_spec in E.
    destruct (legDetail_walk idx leg H E) as (d & m & s & e & w & -> & _). now eexists.
  - assert (Hnot : prop leg "mode" <> JStr "WALK").
    { intros Hw. apply is_string_spec in Hw. congruence. }
    destruct (legDetail_transit idx leg H Hnot) as (md & r & d & m & s & e & l & p & -> & _).
    now eexists.
Qed.

Lemma whenTruthy_round_ok (v : value) :
  absentOr isCount v = true ->
  exists o, whenTruthy v roundMinutes = Ok o
            /\ forall r, o = Some r -> safe r = true.
Proof.
  unfold absentOr, whenTruthy. destruct v; simpl; try discriminate; intros H.
  - exists None. split; [reflexivity|discriminate].
  - destruct (negb (n =? 0)).
    + rewrite (roundMinutes_safe n H). simpl.
      eexists. split; [reflexivity|]. intros r [= <-]. now apply safe_minutes.
    + exists None. split; [reflexivity|discriminate].
Qed.

Lemma whenTruthy_km_ok (v : value) :
  absentOr isCount v = true ->
  exists o, whenTruthy v kilometres = Ok o.
Proof.
  unfold absentOr, whenTruthy. destruct v; simpl; try discriminate; intros H.
  - now exists None.
  - destruct (Z.eqb_spec n 0) as [E|E]; simpl; [now exists None|].
    destruct (toFixed1_divide_1000 n E (safe_bound n H)) as (q & Eq & _).
    unfold kilometres, ToNumber. rewrite H. simpl bind. rewrite Eq. now eexists.
Qed.

Lemma coalesce_count (v : value) :
  absentOr isCount v = true -> isCount (coalesce v (JNum 0)) = true.
Proof. unfold absentOr. destruct v; simpl; try discriminate; auto. Qed.

Lemma fare_count (f : value) :
  absentOr fareShape f = true ->
  isCount (coalesce (optget (optget f "regular") "totalFare") (JNum 0)) = true.
Proof.
  intros H. apply orb_prop in H as [H|H].
  - destruct f; try discriminate H. reflexivity.
  - unfold fareShape in H. apply andb_prop in H as [Hobj H].
    destruct f as [| | | | | |fields]; try discriminate Hobj.
    unfold optget at 2. simpl nullish. cbv iota.
    apply orb_prop in H as [H|H].
    + destruct (prop (JObj fields) "regular"); try discriminate H. reflexivity.
    + unfold regularShape in H. apply andb_prop in H as [Hobj' H].
      destruct (prop (JObj fields) "regular") as [| | | | | |fields'];
        try discriminate Hobj'.
      unfold optget. simpl nullish. cbv iota.
      now apply coalesce_count.
Qed.

Lemma metrics_ok (best : value) :
  itineraryShape best = true ->
  exists m text, readMetrics best = Ok m /\ metricsBlock m = Ok text.
Proof.
  unfold itineraryShape. intros H.
  apply andb_prop in H as [H _]. apply andb_prop in H as [H Hfare].
  apply andb_prop in H as [H Hwt]. apply andb_prop in H as [H Hwd].
  apply andb_prop in H as [H Hkm]. apply andb_prop in H as [H Htc].
  apply andb_prop in H as [Hobj Htt].
  pose proof (isObject_not_nullish _ Hobj) as Hn.
  destruct (whenTruthy_round_ok _ Htt) as (dur & Edur & Sdur).
  destruct (whenTruthy_km_ok _ Hkm) as (km & Ekm).
  destruct (whenTruthy_round_ok _ Hwt) as (wt & Ewt & Swt).
  destruct (count_cases _ (coalesce_count _ Htc)) as (nt & Et & St).
  destruct (count_cases _ (fare_count _ Hfare)) as (nf & Ef & Sf).
  destruct (count_cases _ (coalesce_count _ Hwd)) as (nw & Ew & Sw).
  exists {| durationMin := dur; transfers := JNum nt; distanceKm := km;
            walkDistance := JNum nw; walkTimeMin := wt; fare := JNum nf |}.
  assert (Hm : readMetrics best
               = Ok {| durationMin := dur; transfers := JNum nt; distanceKm := km;
                       walkDistance := JNum nw; walkTimeMin := wt; fare := JNum nf |}).
  { unfold readMetrics. rewrite !(get_ok _ _ Hn). simpl bind.
    rewrite Edur. simpl bind. rewrite Ekm. simpl bind. rewrite Ewt. simpl bind.
    now rewrite Et, Ef, Ew. }
  unfold metricsBlock, durationLine, transfersLine, fareLine, distanceLine,
    walkDistanceLine, walkTimeLine.
  cbn [durationMin transfers distanceKm walkDistance walkTimeMin fare].
  simpl ToString. simpl truthy. unfold NumberToString. rewrite St, Sf, Sw.
  destruct dur as [r|]; [rewrite (Sdur r eq_refl)|];
    (destruct wt as [r'|]; [rewrite (Swt r' eq_refl)|]);
    destruct (negb (nf =? 0)); destruct (negb (nw =? 0));
    (destruct km as [x|]; [destruct (negb (String.eqb x EmptyString))|]);
    simpl; eexists; (split; [exact Hm|reflexivity]).
Qed.

(** ** Examples *)

Example divide_125_60 :
  divide 125 60 = S754_finite false 4691249611844267 (-51).
Proof. reflexivity. Qed.

Example round_150_60 : Math_round (divide 150 60) = Some 3.
Proof. reflexivity. Qed.

Example round_minus_30_60 : Math_round (divide (-30) 60) = Some 0.
Proof. reflexivity. Qed.

(** 1.15 is not a binary64 number; the nearest one lies below it. *)
Example toFixed1_1150 : toFixed1 (divide 1150 1000) = Some "1.1".
Proof. reflexivity. Qed.

Example toFixed1_1250 : toFixed1 (divide 1250 1000) = Some "1.3".
Proof. reflexivity. Qed.

Example trim_entry : trim ("[1] 도보 (300m, 약 4분)" ++ nl ++ "    - 도착: B  " ++ nl)
                     = "[1] 도보 (300m, 약 4분)" ++ nl ++ "    - 도착: B".
Proof. reflexivity. Qed.

Example ToString_array :
  ToString (JArr [JNum 1; JNull; JStr "a"; JArr [JBool true; JUndefined]]) = Ok "1,,a,true,".
Proof. reflexivity. Qed.

(** A walking leg, then a bus leg with two passed stations. *)
Example walk_then_bus :
  let walk := JObj [("mode", JStr "WALK"); ("distance", JNum 300); ("sectionTime", JNum 240);
                    ("start", JObj [("name", JStr "A")]); ("end", JObj [("name", JStr "B")])] in
  let bus := JObj [("mode", JStr "BUS"); ("route", JStr "146"); ("distance", JNum 5000);
                   ("sectionTime", JNum 900);
                   ("start", JObj [("name", JStr "B")]); ("end", JObj [("name", JStr "C")]);
                   ("passStopList",
                    JObj [("stationList", JArr [JObj [("stationName", JStr "C1")];
                                                JObj [("stationName", JStr "C2")]])])] in
  let best := JObj [("transferCount", JNum 1);
                    ("fare", JObj [("regular", JObj [("totalFare", JNum 1500)])]);
                    ("legs", JArr [walk; bus])] in
  execute (Responded (responseWith best))
  = Some ("경로 요약: 도보 → 146" ++ nl
          ++ "환승: 1회" ++ nl
          ++ "요금: 1500원" ++ nl
          ++ nl
          ++ "[상세 경유지]" ++ nl
          ++ "[1] 도보 (300m, 약 4분)" ++ nl
          ++ "    - 출발: A" ++ nl
          ++ "    - 도착: B" ++ nl
          ++ nl
          ++ "[2] BUS(146) - 5000m, 약 15분" ++ nl
          ++ "    - 승차: B" ++ nl
          ++ "    - 하차: C" ++ nl
          ++ "    - 경유지: C1 → C2").
Proof. reflexivity. Qed.

Example legs_not_an_array :
  execute (Responded (responseWith (JObj [("legs", JObj [])])))
  = Some (FAILURE_PREFIX ++ "legs.map is not a function").
Proof. reflexivity. Qed.

Example timeout_rejection :
  execute (Rejected "timeout") = Some "대중교통 경로 조회 실패: timeout".
Proof. reflexivity. Qed.

(** ** C1: an itinerary without legs *)

(** C1, as claimed, fails: a response whose only itinerary has an empty
    [legs] array is not rejected.  [execute] answers with a report that
    has an empty route summary and an empty detail block, not with the
    not-found sentence and not with the failure line. *)
Lemma C1_counterexample :
  let data := responseWith (JObj [("legs", JArr [])]) in
  bestOf data = Some (JObj [("legs", JArr [])])
  /\ execute (Responded data) = Some (zeroLegReport ("환승: 0회" ++ nl))
  /\ execute (Responded data) <> Some NOT_FOUND
  /\ isFailure (zeroLegReport ("환승: 0회" ++ nl)) = false.
Proof.
  repeat split; try reflexivity.
  vm_compute. discriminate.
Qed.

(** C1, amended: for every response whose selected itinerary has an
    empty [legs] array, the itinerary is formatted.  Whenever its metrics
    render, the result is the report with an empty route-summary line,
    the metrics block and an empty detail block. *)
Theorem C1_empty_legs_formatted (data best : value) (m : Metrics) (metrics : string) :
  bestOf data = Some best ->
  prop best "legs" = JArr [] ->
  readMetrics best = Ok m ->
  metricsBlock m = Ok metrics ->
  execute (Responded data) = Some (zeroLegReport metrics).
Proof.
  intros Hbest Hlegs Hm Hmetrics.
  unfold execute, interpret. rewrite Hbest.
  unfold report. rewrite Hm. simpl bind.
  rewrite (get_ok _ _ (readMetrics_not_nullish _ _ Hm)), Hlegs.
  simpl. rewrite Hmetrics. reflexivity.
Qed.

Lemma C1_empty_legs_formatted_witness :
  execute (Responded (responseWith (JObj [("legs", JArr [])])))
  = Some (zeroLegReport ("환승: 0회" ++ nl)).
Proof.
  apply (C1_empty_legs_formatted _ (JObj [("legs", JArr [])])
           {| durationMin := None; transfers := JNum 0; distanceKm := None;
              walkDistance := JNum 0; walkTimeMin := None; fare := JNum 0 |});
    reflexivity.
Defined.

(** ** C2: no itinerary *)

(** C2, as claimed, fails on the missing itinerary: a list of
    itineraries that holds [null] where the first itinerary should be is
    not empty, so the guard lets it pass, and reading [totalTime] of
    [null] throws.  [execute] answers with the failure line, not with
    the not-found sentence. *)
Lemma C2_counterexample :
  let data := responseWith JNull in
  prop (planOf data) "itineraries" = JArr [JNull]
  /\ bestOf data = Some JNull
  /\ execute (Responded data)
     = Some (FAILURE_PREFIX ++ "Cannot read properties of null (reading 'totalTime')")
  /\ execute (Responded data) <> Some NOT_FOUND.
Proof.
  repeat split; try reflexivity.
  vm_compute. discriminate.
Qed.

(** C2, amended: when the response, its [metaData], [metaData.plan] or
    the plan's [itineraries] is missing ([undefined] or [null]), or
    [itineraries] is the empty list, no itinerary is selected and the
    result is the fixed not-found sentence: the same text for every such
    response, and no summary is made up. *)
Theorem C2_not_found (data : value) :
  nullish data = true
  \/ nullish (optget data "metaData") = true
  \/ nullish (planOf data) = true
  \/ nullish (prop (planOf data) "itineraries") = true
  \/ prop (planOf data) "itineraries" = JArr [] ->
  bestOf data = None
  /\ execute (Responded data) = Some "경로를 찾을 수 없습니다.".
Proof.
  intros H.
  assert (Hno : noRoute (planOf data) = true).
  { unfold noRoute.
    destruct H as [H|[H|[H|[H|H]]]].
    - rewrite (planOf_missing data (or_introl H)). reflexivity.
    - rewrite (planOf_missing data (or_intror H)). reflexivity.
    - now rewrite (nullish_falsy _ H).
    - rewrite (nullish_falsy _ H). simpl. now rewrite orb_true_r.
    - rewrite H. simpl. apply orb_true_r. }
  assert (Hb : bestOf data = None) by (unfold bestOf; now rewrite Hno).
  split; [exact Hb|].
  unfold execute, interpret. now rewrite Hb.
Qed.

Lemma C2_not_found_witness :
  bestOf (JObj [("metaData", JObj [("plan", JObj [("itineraries", JArr [])])])]) = None
  /\ execute (Responded (JObj [("metaData", JObj [("plan", JObj [("itineraries", JArr [])])])]))
     = Some "경로를 찾을 수 없습니다.".
Proof.
  apply C2_not_found. right; right; right; right. reflexivity.
Defined.

(** ** C3: legs with missing fields *)

(** C3, as claimed, fails: a shape mismatch can make the formatting
    throw.  A leg whose [Lane] array holds [null] raises a [TypeError]
    when the route of the lane is read; the leg is not emitted, and the
    whole call answers with the failure line. *)
Lemma C3_counterexample :
  let leg := JObj [("mode", JStr "BUS"); ("distance", JNum 5000);
                   ("sectionTime", JNum 900); ("Lane", JArr [JNull])] in
  legDetail 0 leg = Throw (CannotRead JNull "route")
  /\ execute (Responded (responseWith (JObj [("legs", JArr [leg])])))
     = Some (FAILURE_PREFIX ++ "Cannot read properties of null (reading 'route')").
Proof. split; reflexivity. Qed.

(** C3, amended: in a found itinerary whose fields are each missing or
    of the expected shape, formatting does not throw and every leg is
    emitted as a numbered entry of the detail block, at its place.  In
    the entry a missing mode or distance is printed as "undefined", a
    missing sectionTime counts as 0 minutes, and a missing route, start,
    end, steps, Lane or passStopList leaves its part of the entry out. *)
Theorem C3_missing_fields (best : value) (legs : list value) :
  itineraryShape best = true ->
  prop best "legs" = JArr legs ->
  exists stops metrics details,
    report best
    = Ok ("경로 요약: " ++ stops ++ nl ++ metrics ++ nl ++ "[상세 경유지]" ++ nl
            ++ join (nl ++ nl) details)
    /\ forall idx leg,
        nth_error legs idx = Some leg ->
        (exists body, nth_error details idx = Some (trim (legHead idx ++ body)))
        /\ (prop leg "mode" = JStr "WALK" ->
            exists d m s e w,
              nth_error details idx
              = Some (trim (legHead idx
                              ++ "도보 (" ++ d ++ "m, 약 " ++ m ++ "분)" ++ nl
                              ++ s ++ e ++ w))
              /\ (prop leg "distance" = JUndefined -> d = "undefined")
              /\ (prop leg "sectionTime" = JUndefined -> m = "0")
              /\ (prop leg "start" = JUndefined -> s = EmptyString)
              /\ (prop leg "end" = JUndefined -> e = EmptyString)
              /\ (prop leg "steps" = JUndefined -> w = EmptyString))
        /\ (prop leg "mode" <> JStr "WALK" ->
            exists md r d m s e l p,
              nth_error details idx
              = Some (trim (legHead idx
                              ++ md ++ r ++ " - " ++ d ++ "m, 약 " ++ m ++ "분" ++ nl
                              ++ s ++ e ++ l ++ p))
              /\ (prop leg "mode" = JUndefined -> md = "undefined")
              /\ (prop leg "route" = JUndefined -> r = EmptyString)
              /\ (prop leg "distance" = JUndefined -> d = "undefined")
              /\ (prop leg "sectionTime" = JUndefined -> m = "0")
              /\ (prop leg "start" = JUndefined -> s = EmptyString)
              /\ (prop leg "end" = JUndefined -> e = EmptyString)
              /\ (prop leg "Lane" = JUndefined -> l = EmptyString)
              /\ (prop leg "passStopList" = JUndefined -> p = EmptyString)).
Proof.
  intros Hshape Hlegs.
  destruct (metrics_ok best Hshape) as (m & metrics & Hm & Hmetrics).
  pose proof (readMetrics_not_nullish _ _ Hm) as Hn.
  assert (Hall : forallb legShape legs = true).
  { unfold itineraryShape in Hshape. apply andb_prop in Hshape as [_ H].
    rewrite Hlegs in H. exact H. }
  destruct (mapM_ok stopLabel legShape (fun v => absentOr isText v = true) legs
              stopLabel_ok Hall) as (labels & Hlabels & Htext).
  destruct (joinValues_text arrow labels Htext) as (stops & Hstops).
  destruct (mapMi_ok legDetail legShape legs
              (fun i x Hx => match legDetail_ok i x Hx with
                             | ex_intro _ body E => ex_intro _ _ E
                             end) Hall 0%nat) as (details & Hdetails).
  exists stops, metrics, details.
  split.
  - unfold report. rewrite Hm. simpl bind.
    rewrite (get_ok _ _ Hn), Hlegs. simpl bind.
    rewrite Hlabels. simpl bind. rewrite Hstops. simpl bind.
    rewrite Hdetails. simpl bind. now rewrite Hmetrics.
  - intros idx leg Hnth.
    destruct (mapMi_nth legDetail legs 0 details idx leg Hdetails Hnth)
      as (entry & Hentry & Hplace).
    simpl in Hentry.
    assert (Hleg : legShape leg = true).
    { apply (proj1 (forallb_forall legShape legs) Hall). eapply nth_error_In; eauto. }
    rewrite Hplace.
    split; [|split].
    + destruct (legDetail_ok idx leg Hleg) as (body & E).
      exists body. congruence.
    + intros Hwalk.
      destruct (legDetail_walk idx leg Hleg Hwalk) as (d & mi & s & e & w & E & Hmiss).
      exists d, mi, s, e, w. split; [congruence|exact Hmiss].
    + intros Hnot.
      destruct (legDetail_transit idx leg Hleg Hnot)
        as (md & r & d & mi & s & e & l & p & E & Hmiss).
      exists md, r, d, mi, s, e, l, p. split; [congruence|exact Hmiss].
Qed.

Lemma C3_missing_fields_witness :
  exists stops metrics details,
    report (JObj [("legs", JArr [JObj []])])
    = Ok ("경로 요약: " ++ stops ++ nl ++ metrics ++ nl ++ "[상세 경유지]" ++ nl
            ++ join (nl ++ nl) details)
    /\ (exists md r d m s e l p,
           nth_error details 0
           = Some (trim (legHead 0
                           ++ md ++ r ++ " - " ++ d ++ "m, 약 " ++ m ++ "분" ++ nl
                           ++ s ++ e ++ l ++ p))
           /\ md = "undefined" /\ d = "undefined" /\ m = "0").
Proof.
  destruct (C3_missing_fields (JObj [("legs", JArr [JObj []])]) [JObj []] eq_refl eq_refl)
    as (stops & metrics & details & Hreport & Hlegs).
  exists stops, metrics, details. split; [exact Hreport|].
  destruct (Hlegs 0%nat (JObj []) eq_refl) as (_ & _ & Htransit).
  destruct (Htransit ltac:(discriminate))
    as (md & r & d & m & s & e & l & p & E & Hmd & _ & Hd & Hm & _).
  exists md, r, d, m, s, e, l, p.
  repeat split; auto.
Defined.

(** ** C4: seconds to minutes, metres to kilometres *)



(** ** C5: the metrics block *)



(** ** C6: the service status of a lane *)



(** ** C7: walking legs *)

(** C7: the detail of a leg whose mode is "WALK" is its number, the walk
    label with distance and minutes, the start and end names and the
    steps, and nothing else.  It reads only [mode], [distance],
    [sectionTime], [start], [end] and [steps]: whatever [route], [Lane]
    or [passStopList] the leg carries, no route label and no lane or
    status line comes out, and the route summary names the leg by the
    walk label. *)
Theorem C7_walk_leg (idx : nat) (leg : value) :
  prop leg "mode" = JStr "WALK" ->
  (forall startName endName d m s e w,
      endpoint leg "start" = Ok startName ->
      endpoint leg "end" = Ok endName ->
      ToString (prop leg "distance") = Ok d ->
      sectionMinutes leg = Ok m ->
      labelled "출발" startName = Ok s ->
      labelled "도착" endName = Ok e ->
      walkSteps leg = Ok w ->
      legDetail idx leg
      = Ok (trim (legHead idx
                    ++ "도보 (" ++ d ++ "m, 약 " ++ m ++ "분)" ++ nl ++ s ++ e ++ w)))
  /\ (forall leg',
         nullish leg' = false ->
         (forall k, In k ["mode"; "distance"; "sectionTime"; "start"; "end"; "steps"] ->
                    prop leg' k = prop leg k) ->
         legDetail idx leg' = legDetail idx leg)
  /\ stopLabel leg = Ok (JStr "도보").
Proof.
  intros Hmode.
  assert (Hleg : nullish leg = false) by (destruct leg; simpl in *; congruence).
  split; [|split].
  - intros startName endName d m s e w Hs He Hd Hm Hls Hle Hw.
    unfold legDetail. rewrite Hs, He. simpl bind.
    rewrite (get_ok _ _ Hleg), Hmode. simpl bind. simpl is_string. cbv iota.
    rewrite (get_ok _ _ Hleg). simpl bind.
    rewrite Hd. simpl bind. rewrite Hm. simpl bind.
    rewrite Hls. simpl bind. rewrite Hle. simpl bind. rewrite Hw. reflexivity.
  - intros leg' Hleg' Hagree.
    assert (Hk : forall k, In k ["mode"; "distance"; "sectionTime"; "start"; "end"; "steps"] ->
                           get leg' k = get leg k).
    { intros k Hin. apply get_agree; auto. }
    unfold legDetail, endpoint.
    rewrite !(Hk "start"), !(Hk "end"), !(Hk "mode") by (simpl; tauto).
    rewrite !(get_ok _ _ Hleg), Hmode. simpl bind. simpl is_string. cbv iota.
    unfold sectionMinutes, walkSteps.
    rewrite !(Hk "distance"), !(Hk "sectionTime"), !(Hk "steps") by (simpl; tauto).
    rewrite !(get_ok _ _ Hleg). reflexivity.
  - unfold stopLabel. rewrite (get_ok _ _ Hleg), Hmode. reflexivity.
Qed.

Lemma C7_walk_leg_witness :
  let leg := JObj [("mode", JStr "WALK"); ("route", JStr "146"); ("distance", JNum 300);
                   ("sectionTime", JNum 240);
                   ("Lane", JArr [JObj [("route", JStr "146"); ("service", JNum 1)]])] in
  legDetail 0 (JObj [("mode", JStr "WALK"); ("distance", JNum 300); ("sectionTime", JNum 240)])
  = legDetail 0 leg.
Proof.
  intros leg.
  apply (proj1 (proj2 (C7_walk_leg 0 leg eq_refl))); [reflexivity|].
  intros k [<-|[<-|[<-|[<-|[<-|[<-|[]]]]]]]; reflexivity.
Defined.

(** ** C8: the upstream call fails *)

(** C8, as claimed, fails on the "exactly one line": the message of the
    rejection is copied as it is, and a message with a line break in it
    gives a text of more than one line. *)
Lemma C8_counterexample :
  execute (Rejected ("write EPROTO" ++ nl ++ "wrong version number"))
  = Some (FAILURE_PREFIX ++ "write EPROTO" ++ nl ++ "wrong version number")
  /\ oneLine (FAILURE_PREFIX ++ "write EPROTO" ++ nl ++ "wrong version number") = false.
Proof. split; reflexivity. Qed.

(** C8, amended: for every rejection of the directions call the result
    is a text, never a fault: the fixed failure prefix followed by the
    message of the error and nothing else.  It is one line exactly when
    the message is. *)
Theorem C8_upstream_failure (msg : string) :
  execute (Rejected msg) = Some ("대중교통 경로 조회 실패: " ++ msg)
  /\ oneLine ("대중교통 경로 조회 실패: " ++ msg) = oneLine msg.
Proof.
  split; [reflexivity|].
  now rewrite oneLine_app.
Qed.

(** ** C9: a zero that counts as absent *)

(** C9: a [totalTime], [totalDistance] or [totalWalkTime] that is present
    and equal to 0 is treated as an absent one.  The itinerary [best]
    that carries such zeros and the itinerary [best'] that omits them,
    equal in what else the report reads, give the same report; and the
    duration, distance and walk-time lines of [best] are empty. *)
Theorem C9_zero_as_absent (best best' : value) :
  nullish best = false ->
  nullish best' = false ->
  (forall k, In k ["transferCount"; "totalWalkDistance"; "fare"; "legs"] ->
             prop best' k = prop best k) ->
  (forall k, In k ["totalTime"; "totalDistance"; "totalWalkTime"] ->
             prop best k = JNum 0 /\ prop best' k = JUndefined
             \/ prop best' k = prop best k) ->
  report best' = report best
  /\ (forall m, readMetrics best = Ok m ->
        (prop best "totalTime" = JNum 0 ->
         durationMin m = None /\ durationLine m = Ok EmptyString)
        /\ (prop best "totalDistance" = JNum 0 ->
            distanceKm m = None /\ distanceLine m = Ok EmptyString)
        /\ (prop best "totalWalkTime" = JNum 0 ->
            walkTimeMin m = None /\ walkTimeLine m = Ok EmptyString)).
Proof.
  intros Hn Hn' Hsame Hzero.
  split.
  - assert (Hk : forall k, In k ["transferCount"; "totalWalkDistance"; "fare"; "legs"] ->
                           get best' k = get best k).
    { intros k Hin. apply get_agree; auto. }
    unfold report, readMetrics.
    rewrite !(Hk "transferCount"), !(Hk "totalWalkDistance"), !(Hk "fare"), !(Hk "legs")
      by (simpl; tauto).
    rewrite !(get_ok _ _ Hn), !(get_ok _ _ Hn'). simpl bind.
    rewrite (whenTruthy_zero_absent _ _ roundMinutes (Hzero "totalTime" ltac:(simpl; tauto))).
    rewrite (whenTruthy_zero_absent _ _ kilometres (Hzero "totalDistance" ltac:(simpl; tauto))).
    rewrite (whenTruthy_zero_absent _ _ roundMinutes (Hzero "totalWalkTime" ltac:(simpl; tauto))).
    reflexivity.
  - intros m Hm.
    destruct (readMetrics_inv _ _ Hm) as (_ & Hd & Hk & Hw & _).
    split; [|split]; intros Hz.
    + rewrite Hz in Hd. unfold durationLine. now injection Hd as <-.
    + rewrite Hz in Hk. unfold distanceLine. now injection Hk as <-.
    + rewrite Hz in Hw. unfold walkTimeLine. now injection Hw as <-.
Qed.

Lemma C9_zero_as_absent_witness :
  let best := JObj [("totalTime", JNum 0); ("totalDistance", JNum 0);
                    ("transferCount", JNum 1); ("totalWalkTime", JNum 0)] in
  let best' := JObj [("transferCount", JNum 1)] in
  report best' = report best.
Proof.
  intros best best'.
  apply (C9_zero_as_absent best best' eq_refl eq_refl).
  - intros k [<-|[<-|[<-|[<-|[]]]]]; reflexivity.
  - intros k [<-|[<-|[<-|[]]]]; left; split; reflexivity.
Defined.

(** ** C10: the entries of a Lane array *)

(** C10: a transit leg whose [Lane] array has several entries is rendered
    as the leg whose [Lane] holds the first entry alone, and a leg whose
    [Lane] array is empty gets no lane lines: it is rendered as the leg
    without [Lane]. *)
Theorem C10_first_lane_only (idx : nat) (leg leg' : value) :
  nullish leg = false ->
  nullish leg' = false ->
  (forall k, In k ["mode"; "route"; "distance"; "sectionTime"; "start"; "end";
                   "steps"; "passStopList"] ->
             prop leg' k = prop leg k) ->
  (forall lane rest,
      prop leg "Lane" = JArr (lane :: rest) ->
      prop leg' "Lane" = JArr [lane] ->
      laneLines leg' = laneLines leg /\ legDetail idx leg' = legDetail idx leg)
  /\ (prop leg "Lane" = JArr [] ->
      prop leg' "Lane" = JUndefined ->
      laneLines leg = Ok EmptyString /\ legDetail idx leg' = legDetail idx leg).
Proof.
  intros Hleg Hleg' Hagree.
  assert (Hk : forall k, In k ["mode"; "route"; "distance"; "sectionTime"; "start"; "end";
                               "steps"; "passStopList"] ->
                         get leg' k = get leg k).
  { intros k Hin. apply get_agree; auto. }
  assert (Hdetail : laneLines leg' = laneLines leg -> legDetail idx leg' = legDetail idx leg).
  { intros Hlane.
    unfold legDetail, endpoint, sectionMinutes, walkSteps, routeLabel, passedStations.
    rewrite !(Hk "start"), !(Hk "end"), !(Hk "mode"), !(Hk "distance"),
      !(Hk "sectionTime"), !(Hk "steps"), !(Hk "route"), !(Hk "passStopList")
      by (simpl; tauto).
    now rewrite Hlane. }
  split.
  - intros lane rest HL HL'.
    assert (Hlane : laneLines leg' = laneLines leg).
    { unfold laneLines. now rewrite (get_ok _ _ Hleg), (get_ok _ _ Hleg'), HL, HL'. }
    split; [exact Hlane|now apply Hdetail].
  - intros HL HL'.
    assert (Hlane : laneLines leg = Ok EmptyString).
    { unfold laneLines. now rewrite (get_ok _ _ Hleg), HL. }
    split; [exact Hlane|].
    apply Hdetail. rewrite Hlane.
    unfold laneLines. now rewrite (get_ok _ _ Hleg'), HL'.
Qed.

Lemma C10_first_lane_only_witness :
  let first := JObj [("route", JStr "146"); ("service", JNum 1)] in
  let leg := JObj [("mode", JStr "BUS"); ("distance", JNum 5000);
                   ("Lane", JArr [first; JObj [("route", JStr "147"); ("service", JNum 0)]])] in
  let leg' := JObj [("mode", JStr "BUS"); ("distance", JNum 5000); ("Lane", JArr [first])] in
  laneLines leg' = laneLines leg /\ legDetail 1 leg' = legDetail 1 leg.
Proof.
  intros first leg leg'.
  assert (Hagree : forall k, In k ["mode"; "route"; "distance"; "sectionTime"; "start"; "end";
                                   "steps"; "passStopList"] ->
                             prop leg' k = prop leg k).
  { intros k [<-|[<-|[<-|[<-|[<-|[<-|[<-|[<-|[]]]]]]]]]; reflexivity. }
  apply (proj1 (C10_first_lane_only 1 leg leg' eq_refl eq_refl Hagree)
           first [JObj [("route", JStr "147"); ("service", JNum 0)]]); reflexivity.
Defined.

(** ** Further properties of [TransitApiTool.execute] *)

Lemma prefix_app (p s : string) : prefix p (p ++ s) = true.
Proof.
  induction p as [|c p IH]; simpl; [now destruct s|].
  destruct (ascii_dec c c); [exact IH|congruence].
Qed.

Lemma bestOf_first (data best : value) (rest : list value) :
  prop (planOf data) "itineraries" = JArr (best :: rest) ->
  bestOf data = Some best.
Proof.
  intros H.
  assert (Hplan : truthy (planOf data) = true).
  { revert H. destruct (planOf data); intros H; try reflexivity; cbv in H; discriminate H. }
  unfold bestOf, noRoute. rewrite H, Hplan. reflexivity.
Qed.

(** X1: of the itineraries of a response only the first one is read.
    A response whose list starts with [best] gives what the response
    that carries [best] alone gives, whatever follows [best]. *)
Theorem first_itinerary_only (data best : value) (rest : list value) :
  prop (planOf data) "itineraries" = JArr (best :: rest) ->
  execute (Responded data) = execute (Responded (responseWith best)).
Proof.
  intros H. unfold execute, interpret.
  rewrite (bestOf_first data best rest H).
  now rewrite (bestOf_first (responseWith best) best [] eq_refl).
Qed.

Lemma first_itinerary_only_witness :
  execute (Responded (JObj [("metaData",
             JObj [("plan", JObj [("itineraries",
                      JArr [JObj [("transferCount", JNum 2)]; JNull; JStr "x"])])])]))
  = execute (Responded (responseWith (JObj [("transferCount", JNum 2)]))).
Proof.
  apply (first_itinerary_only _ (JObj [("transferCount", JNum 2)]) [JNull; JStr "x"]).
  reflexivity.
Defined.

Lemma report_starts (best : value) (text : string) :
  report best = Ok text -> exists rest, text = "경로 요약: " ++ rest.
Proof.
  intros H. destruct (report_inv _ _ H) as (m & stops & metrics & details & _ & _ & ->).
  now eexists.
Qed.

(** X2: the text that [execute] returns is of exactly one of three
    kinds, told apart by its first bytes: the not-found sentence, when
    no itinerary is selected; a line that starts with the failure
    prefix, when the request is rejected or the interpretation throws;
    a report that starts with the route summary, otherwise. *)
Theorem three_outcomes (u : upstream) (text : string) :
  execute u = Some text ->
  (text = NOT_FOUND /\ isFailure text = false /\ isReport text = false
   /\ exists data, u = Responded data /\ bestOf data = None)
  \/ (isFailure text = true /\ text <> NOT_FOUND /\ isReport text = false
      /\ ((exists msg, u = Rejected msg /\ text = FAILURE_PREFIX ++ msg)
          \/ (exists data best e,
                 u = Responded data /\ bestOf data = Some best
                 /\ report best = Throw e /\ text = FAILURE_PREFIX ++ message e)))
  \/ (isReport text = true /\ text <> NOT_FOUND /\ isFailure text = false
      /\ exists data best,
           u = Responded data /\ bestOf data = Some best /\ report best = Ok text).
Proof.
  assert (Hfail : forall s, isFailure (FAILURE_PREFIX ++ s) = true
                            /\ FAILURE_PREFIX ++ s <> NOT_FOUND
                            /\ isReport (FAILURE_PREFIX ++ s) = false).
  { intros s. split; [apply prefix_app|]. split; [|reflexivity].
    unfold FAILURE_PREFIX, NOT_FOUND. simpl. discriminate. }
  unfold execute. destruct u as [data|msg].
  - unfold interpret. destruct (bestOf data) as [best|] eqn:Hbest.
    + destruct (report best) as [t|e|] eqn:Hreport; intros H; try discriminate H.
      * injection H as <-. right. right.
        destruct (report_starts _ _ Hreport) as (rest & ->).
        split; [apply prefix_app|].
        split; [unfold NOT_FOUND; simpl; discriminate|]. split; [reflexivity|].
        now exists data, best.
      * injection H as <-. right. left.
        destruct (Hfail (message e)) as (H1 & H2 & H3).
        repeat split; try assumption.
        right. now exists data, best, e.
    + intros H. injection H as <-. left.
      repeat split. now exists data.
  - intros H. injection H as <-. right. left.
    destruct (Hfail msg) as (H1 & H2 & H3).
    repeat split; try assumption.
    left. now exists msg.
Qed.

Lemma three_outcomes_witness :
  isFailure (FAILURE_PREFIX ++ "timeout") = true
  /\ FAILURE_PREFIX ++ "timeout" <> NOT_FOUND
  /\ isReport (FAILURE_PREFIX ++ "timeout") = false.
Proof.
  destruct (three_outcomes (Rejected "timeout") (FAILURE_PREFIX ++ "timeout") eq_refl)
    as [(H & _)|[(H1 & H2 & H3 & _)|(H & _)]].
  - discriminate H.
  - now repeat split.
  - discriminate H.
Defined.

(** X3: when the selected itinerary is [null] or [undefined] (a list
    that starts with [null], or an [itineraries] value that is not a
    list but has a length), the result is the failure line of the
    [TypeError] raised on reading [totalTime], not the not-found
    sentence. *)
Theorem nullish_itinerary_fails (data best : value) :
  bestOf data = Some best ->
  nullish best = true ->
  execute (Responded data)
  = Some ("대중교통 경로 조회 실패: Cannot read properties of "
            ++ (match best with JNull => "null" | _ => "undefined" end)
            ++ " (reading 'totalTime')").
Proof.
  intros Hbest Hnull. unfold execute, interpret. rewrite Hbest.
  unfold report, readMetrics, get. rewrite Hnull. reflexivity.
Qed.

Lemma nullish_itinerary_fails_witness :
  execute (Responded (responseWith JNull))
  = Some "대중교통 경로 조회 실패: Cannot read properties of null (reading 'totalTime')".
Proof.
  apply (nullish_itinerary_fails (responseWith JNull) JNull); reflexivity.
Defined.

(** X4: a [legs] value that is not a list.  A falsy one ([undefined],
    [null], [false], 0, the empty string) counts as the empty list and
    gives the zero-leg report; a truthy one that is not an array gives
    the failure line of [legs.map]. *)
Theorem legs_not_a_list (data best : value) (m : Metrics) :
  bestOf data = Some best ->
  readMetrics best = Ok m ->
  (truthy (prop best "legs") = false ->
   forall metrics, metricsBlock m = Ok metrics ->
                   execute (Responded data) = Some (zeroLegReport metrics))
  /\ (truthy (prop best "legs") = true ->
      (forall items, prop best "legs" <> JArr items) ->
      execute (Responded data)
      = Some "대중교통 경로 조회 실패: legs.map is not a function").
Proof.
  intros Hbest Hm.
  pose proof (readMetrics_not_nullish _ _ Hm) as Hn.
  split.
  - intros Hfalsy metrics Hmetrics.
    unfold execute, interpret. rewrite Hbest.
    unfold report. rewrite Hm. simpl bind.
    rewrite (get_ok _ _ Hn). simpl bind. unfold or_else. rewrite Hfalsy.
    simpl. rewrite Hmetrics. reflexivity.
  - intros Htruthy Hnot.
    unfold execute, interpret. rewrite Hbest.
    unfold report. rewrite Hm. simpl bind.
    rewrite (get_ok _ _ Hn). simpl bind. unfold or_else. rewrite Htruthy.
    destruct (prop best "legs") as [| | | | |items|]; try reflexivity.
    now destruct (Hnot items).
Qed.

Lemma legs_not_a_list_witness :
  execute (Responded (responseWith (JObj [("legs", JObj [])])))
  = Some "대중교통 경로 조회 실패: legs.map is not a function".
Proof.
  apply (proj2 (legs_not_a_list (responseWith (JObj [("legs", JObj [])]))
                  (JObj [("legs", JObj [])])
                  {| durationMin := None; transfers := JNum 0; distanceKm := None;
                     walkDistance := JNum 0; walkTimeMin := None; fare := JNum 0 |}
                  eq_refl eq_refl)).
  - reflexivity.
  - discriminate.
Defined.

(** X5: a small positive total is printed as a zero.  A [totalTime] or
    [totalWalkTime] of 1 to 29 seconds gives a line of 0 minutes, and a
    [totalDistance] of 1 to 49 metres a line of 0.0 km, where the value
    0 gives no line. *)
Theorem small_totals_print_zero (best : value) (m : Metrics) (n : Z) :
  readMetrics best = Ok m ->
  (prop best "totalTime" = JNum n -> 0 < n < 30 ->
   durationLine m = Ok ("소요 시간: 약 0분" ++ nl))
  /\ (prop best "totalWalkTime" = JNum n -> 0 < n < 30 ->
      walkTimeLine m = Ok ("총 도보 시간: 약 0분" ++ nl))
  /\ (prop best "totalDistance" = JNum n -> 0 < n < 50 ->
      distanceLine m = Ok ("총 거리: 0.0km" ++ nl)).
Proof.
  intros Hm.
  destruct (readMetrics_inv _ _ Hm) as (_ & Hd & Hk & Hw & _).
  assert (Hzero : forall o, 0 < n < 30 -> whenTruthy (JNum n) roundMinutes = Ok o ->
                            o = Some 0).
  { intros o Hn H. destruct (whenTruthy_number n _ _ ltac:(lia) H) as (x & Hx & ->).
    apply roundMinutes_inv in Hx as [_ ->]. f_equal. apply Z.div_small. lia. }
  split; [|split]; intros E Hn.
  - rewrite E in Hd. unfold durationLine. now rewrite (Hzero _ Hn Hd).
  - rewrite E in Hw. unfold walkTimeLine. now rewrite (Hzero _ Hn Hw).
  - rewrite E in Hk.
    destruct (whenTruthy_number n _ _ ltac:(lia) Hk) as (x & Hx & Ex).
    unfold kilometres in Hx. apply bind_ok_inv in Hx as (n' & Hn' & Hx).
    unfold ToNumber in Hn'. destruct (safe n) eqn:Hs; [|discriminate].
    injection Hn' as <-.
    destruct (toFixed1_divide_1000 n ltac:(lia) (safe_bound n Hs)) as (q & Eq & Hq & Hnear).
    rewrite Eq in Hx. injection Hx as <-.
    assert (q = 0) by lia. subst q.
    replace (n <? 0) with false in Ex by (symmetry; apply Z.ltb_ge; lia).
    unfold distanceLine. rewrite Ex. reflexivity.
Qed.

Lemma small_totals_print_zero_witness :
  durationLine {| durationMin := Some 0; transfers := JNum 0; distanceKm := Some "0.0";
                  walkDistance := JNum 0; walkTimeMin := None; fare := JNum 0 |}
  = Ok ("소요 시간: 약 0분" ++ nl).
Proof.
  apply (proj1 (small_totals_print_zero
                  (JObj [("totalTime", JNum 29); ("totalDistance", JNum 49)]) _ 29 eq_refl));
    [reflexivity|lia].
Defined.

Lemma joinValues_texts (sep : string) (l : list value) :
  Forall (fun v => absentOr isText v = true) l ->
  joinValues sep l = Ok (join sep (map textOf l)).
Proof.
  intros H. unfold joinValues.
  assert (E : mapM (fun x => if nullish x then Ok EmptyString else ToString x) l
              = Ok (map textOf l)).
  { induction H as [|v l Hv _ IH]; simpl; [reflexivity|].
    rewrite IH. destruct v; try discriminate Hv; reflexivity. }
  now rewrite E.
Qed.

Lemma filter_truthy_texts (l : list value) :
  Forall (fun v => absentOr isText v = true) l ->
  map textOf (filter truthy l) = filter nonEmpty (map textOf l)
  /\ Forall (fun v => absentOr isText v = true) (filter truthy l).
Proof.
  induction 1 as [|v l Hv _ [IH1 IH2]]; simpl; [now split|].
  destruct v; try discriminate Hv; simpl.
  - now split.
  - unfold nonEmpty. destruct (negb (String.eqb s EmptyString)); simpl.
    + rewrite IH1. split; [reflexivity|now constructor].
    + now split.
Qed.

Lemma stationNames_ok (stationList : list value) :
  forallb stationShape stationList = true ->
  mapM (fun station => get station "stationName") stationList
  = Ok (map (fun station => prop station "stationName") stationList)
  /\ Forall (fun v => absentOr isText v = true)
            (map (fun station => prop station "stationName") stationList).
Proof.
  induction stationList as [|st l IH]; simpl; intros H; [now split|].
  apply andb_prop in H as [Hst Hl]. destruct (IH Hl) as [-> IHf].
  unfold stationShape in Hst. apply andb_prop in Hst as [Ho Hname].
  rewrite (get_ok _ _ (isObject_not_nullish _ Ho)). simpl.
  split; [reflexivity|now constructor].
Qed.

(** X6: the line of the passed stations.  Of the stations of a leg the
    ones without a name, or with an empty one, are left out; the names
    that remain are joined by the arrow, in the order of the list; and
    when none remains, as for an empty list, there is no line at all. *)
Theorem passed_stations_line (leg stopList : value) (stationList : list value) :
  prop leg "passStopList" = stopList ->
  isObject leg = true ->
  isObject stopList = true ->
  prop stopList "stationList" = JArr stationList ->
  forallb stationShape stationList = true ->
  passedStations leg
  = Ok (stationsLine
          (filter nonEmpty
             (map (fun station => textOf (prop station "stationName")) stationList))).
Proof.
  intros Hpsl Hleg Hobj Hlist Hshape.
  destruct (stationNames_ok stationList Hshape) as [Hnames Htext].
  destruct (filter_truthy_texts _ Htext) as [Hmap Hkept].
  rewrite map_map in Hmap.
  unfold passedStations.
  rewrite (get_ok _ _ (isObject_not_nullish _ Hleg)), Hpsl. simpl bind.
  replace (truthy stopList) with true by (destruct stopList; discriminate || reflexivity).
  rewrite Hlist, Hnames. simpl bind.
  rewrite <- Hmap.
  destruct (filter truthy (map (fun station => prop station "stationName") stationList))
    as [|v kept] eqn:E; [reflexivity|].
  rewrite (joinValues_texts arrow _ Hkept). reflexivity.
Qed.

Lemma passed_stations_line_witness :
  let stationList := [JObj [("stationName", JStr "C1")]; JObj [];
                      JObj [("stationName", JStr EmptyString)];
                      JObj [("stationName", JStr "C2")]] in
  passedStations
    (JObj [("mode", JStr "BUS");
           ("passStopList", JObj [("stationList", JArr stationList)])])
  = Ok ("    - 경유지: C1 → C2" ++ nl).
Proof.
  intros stationList.
  apply (passed_stations_line
           (JObj [("mode", JStr "BUS");
                  ("passStopList", JObj [("stationList", JArr stationList)])])
           (JObj [("stationList", JArr stationList)]) stationList); reflexivity.
Defined.

Lemma stepLines_ok (steps : list value) :
  forallb stepShape steps = true ->
  mapM stepLine steps
  = Ok (map (fun step => "    · " ++ textOf (prop step "description")) steps).
Proof.
  induction steps as [|st l IH]; simpl; intros H; [reflexivity|].
  apply andb_prop in H as [Hst Hl]. rewrite (IH Hl).
  unfold stepShape in Hst. apply andb_prop in Hst as [Ho Hd].
  unfold stepLine. rewrite (get_ok _ _ (isObject_not_nullish _ Ho)). simpl bind.
  destruct (prop st "description") as [| | | |s| |]; try discriminate Hd; [reflexivity|].
  unfold or_else. simpl truthy.
  destruct (String.eqb_spec s EmptyString) as [->|]; reflexivity.
Qed.

(** X7: the steps of a walking leg give one line each, in the order of
    the list, and a line break after the last.  A step without a
    description, or with an empty one, keeps its line, a bare bullet:
    no step is dropped. *)
Theorem walk_steps_lines (leg : value) (steps : list value) :
  isObject leg = true ->
  prop leg "steps" = JArr steps ->
  forallb stepShape steps = true ->
  exists lines,
    walkSteps leg = Ok (join nl lines ++ nl)
    /\ lines = map (fun step => "    · " ++ textOf (prop step "description")) steps
    /\ List.length lines = List.length steps.
Proof.
  intros Hleg Hsteps Hshape.
  exists (map (fun step => "    · " ++ textOf (prop step "description")) steps).
  split; [|split; [reflexivity|apply length_map]].
  unfold walkSteps.
  rewrite (get_ok _ _ (isObject_not_nullish _ Hleg)), Hsteps. simpl bind.
  now rewrite (stepLines_ok steps Hshape).
Qed.

Lemma walk_steps_lines_witness :
  exists lines,
    walkSteps (JObj [("mode", JStr "WALK");
                     ("steps", JArr [JObj [("description", JStr "직진")]; JObj []])])
    = Ok (join nl lines ++ nl)
    /\ lines = ["    · 직진"; "    · "]
    /\ List.length lines = 2%nat.
Proof.
  apply (walk_steps_lines
           (JObj [("mode", JStr "WALK");
                  ("steps", JArr [JObj [("description", JStr "직진")]; JObj []])])
           [JObj [("description", JStr "직진")]; JObj []]); reflexivity.
Defined.

Lemma stopLabel_summary (leg : value) :
  legShape leg = true ->
  exists label,
    stopLabel leg = Ok label
    /\ absentOr isText label = true
    /\ textOf label = summaryLabel leg.
Proof.
  intros H. destruct (legShape_inv leg H) as (Hleg & Hmode & Hroute & _).
  unfold stopLabel, summaryLabel. rewrite !(get_ok _ _ Hleg). simpl bind.
  destruct (is_string (prop leg "mode") "WALK"); [now eexists|].
  destruct (prop leg "route") as [| | | |r| |]; try discriminate Hroute.
  - simpl. now eexists.
  - simpl truthy. unfold nonEmpty. simpl textOf.
    destruct (negb (String.eqb r EmptyString)); now eexists.
Qed.

Lemma stopLabels_summary (legs : list value) :
  forallb legShape legs = true ->
  exists labels,
    mapM stopLabel legs = Ok labels
    /\ joinValues arrow labels = Ok (join arrow (map summaryLabel legs)).
Proof.
  intros H.
  assert (E : exists labels,
             mapM stopLabel legs = Ok labels
             /\ Forall (fun v => absentOr isText v = true) labels
             /\ map textOf labels = map summaryLabel legs).
  { induction legs as [|leg l IH]; simpl in *.
    - exists []. now repeat split.
    - apply andb_prop in H as [Hleg Hl].
      destruct (stopLabel_summary leg Hleg) as (v & -> & Hv & Ev).
      destruct (IH Hl) as (labels & -> & Hf & Em).
      exists (v :: labels). simpl. rewrite Ev, Em.
      split; [reflexivity|]. split; [now constructor|reflexivity]. }
  destruct E as (labels & Hlabels & Hf & Em).
  exists labels. split; [exact Hlabels|].
  now rewrite (joinValues_texts arrow labels Hf), Em.
Qed.

(** X8: the first line of a report is the route summary: one label for
    each leg, in travel order, joined by the arrow.  The label is the
    walk word for a WALK leg, else the route when the leg has a
    non-empty one, else the mode, and the empty text when the mode is
    missing too (where the entry of the leg prints "undefined"). *)
Theorem route_summary (best : value) (legs : list value) :
  itineraryShape best = true ->
  prop best "legs" = JArr legs ->
  exists rest,
    report best
    = Ok ("경로 요약: " ++ join arrow (map summaryLabel legs) ++ nl ++ rest).
Proof.
  intros Hshape Hlegs.
  destruct (metrics_ok best Hshape) as (m & metrics & Hm & Hmetrics).
  pose proof (readMetrics_not_nullish _ _ Hm) as Hn.
  assert (Hall : forallb legShape legs = true).
  { unfold itineraryShape in Hshape. apply andb_prop in Hshape as [_ H].
    rewrite Hlegs in H. exact H. }
  destruct (stopLabels_summary legs Hall) as (labels & Hlabels & Hstops).
  destruct (mapMi_ok legDetail legShape legs
              (fun i x Hx => match legDetail_ok i x Hx with
                             | ex_intro _ body E => ex_intro _ _ E
                             end) Hall 0%nat) as (details & Hdetails).
  eexists.
  unfold report. rewrite Hm. simpl bind.
  rewrite (get_ok _ _ Hn), Hlegs. simpl bind.
  rewrite Hlabels. simpl bind. rewrite Hstops. simpl bind.
  rewrite Hdetails. simpl bind. rewrite Hmetrics. simpl bind.
  reflexivity.
Qed.

Lemma route_summary_witness :
  let legs := [JObj [("mode", JStr "WALK"); ("route", JStr "146")];
               JObj [("mode", JStr "BUS"); ("route", JStr "146")];
               JObj [("mode", JStr "SUBWAY"); ("route", JStr EmptyString)];
               JObj []] in
  exists rest,
    report (JObj [("legs", JArr legs)])
    = Ok ("경로 요약: " ++ join arrow ["도보"; "146"; "SUBWAY"; EmptyString] ++ nl ++ rest).
Proof.
  intros legs.
  apply (route_summary (JObj [("legs", JArr legs)]) legs); reflexivity.
Defined.

Lemma dropWs_idem (l : list ascii) : dropWs (dropWs l) = dropWs l.
Proof.
  remember (List.length l) as n eqn:Hn.
  assert (Hle : (List.length l <= n)%nat) by lia. clear Hn.
  revert l Hle. induction n as [|n IH]; intros l Hle.
  - destruct l; [reflexivity|simpl in Hle; lia].
  - destruct l as [|c r]; [reflexivity|].
    simpl in Hle. cbn [dropWs].
    destruct (ws1 c) eqn:E1; [apply IH; lia|].
    destruct r as [|b r2].
    + cbn [dropWs]. now rewrite E1.
    + simpl in Hle. destruct (ws2 b c) eqn:E2; [apply IH; lia|].
      destruct r2 as [|a r3].
      * cbn [dropWs]. now rewrite E1, E2.
      * simpl in Hle. destruct (ws3 a b c) eqn:E3; [apply IH; lia|].
        cbn [dropWs]. now rewrite E1, E2, E3.
Qed.

Lemma dropWs_length (l : list ascii) : (List.length (dropWs l) <= List.length l)%nat.
Proof.
  remember (List.length l) as n eqn:Hn.
  assert (Hle : (List.length l <= n)%nat) by lia.
  rewrite Hn. clear Hn.
  revert l Hle. induction n as [|n IH]; intros l Hle.
  - destruct l; [simpl; lia|simpl in Hle; lia].
  - destruct l as [|c r]; [simpl; lia|].
    simpl in Hle. cbn [dropWs].
    destruct (ws1 c); [specialize (IH r ltac:(lia)); simpl; lia|].
    destruct r as [|b r2]; [lia|].
    simpl in Hle. destruct (ws2 b c); [specialize (IH r2 ltac:(lia)); simpl; lia|].
    destruct r2 as [|a r3]; [lia|].
    simpl in Hle. destruct (ws3 a b c); [specialize (IH r3 ltac:(lia)); simpl; lia|lia].
Qed.

(** The scan from the end stops before an opening bracket. *)
Lemma dropWs_keeps_bracket (l : list ascii) :
  exists l', dropWs (l ++ ["["%char])%list = (l' ++ ["["%char])%list.
Proof.
  remember (List.length l) as n eqn:Hn.
  assert (Hle : (List.length l <= n)%nat) by lia. clear Hn.
  revert l Hle. induction n as [|n IH]; intros l Hle.
  - destruct l; [now exists []|simpl in Hle; lia].
  - destruct l as [|c r]; [now exists []|].
    simpl in Hle. rewrite <- app_comm_cons. cbn [dropWs].
    destruct (ws1 c); [apply IH; lia|].
    destruct r as [|b r2].
    + simpl app. cbv iota. now exists [c].
    + simpl in Hle. rewrite <- app_comm_cons. cbv iota.
      destruct (ws2 b c); [apply IH; lia|].
      destruct r2 as [|a r3].
      * simpl app. cbv iota.
        replace (ws3 "[" b c) with false by reflexivity.
        now exists [c; b].
      * simpl in Hle. rewrite <- app_comm_cons. cbv iota.
        destruct (ws3 a b c); [apply IH; lia|].
        now exists (c :: b :: a :: r3).
Qed.

Lemma trimStart_bracket (s : string) : trimStart (String "[" s) = String "[" s.
Proof. destruct s as [|b [|c s]]; reflexivity. Qed.

Lemma trimEnd_idem (s : string) : trimEnd (trimEnd s) = trimEnd s.
Proof.
  unfold trimEnd.
  now rewrite list_ascii_of_string_of_list_ascii, rev_involutive, dropWs_idem.
Qed.

Lemma trimEnd_bracket (s : string) : exists t, trimEnd (String "[" s) = String "[" t.
Proof.
  unfold trimEnd. cbn [list_ascii_of_string rev].
  destruct (dropWs_keeps_bracket (rev (list_ascii_of_string s))) as (l' & ->).
  rewrite rev_app_distr. simpl. now eexists.
Qed.

Lemma list_ascii_of_string_app (a b : string) :
  list_ascii_of_string (a ++ b)
  = (list_ascii_of_string a ++ list_ascii_of_string b)%list.
Proof. induction a; simpl; congruence. Qed.

Lemma length_string_of_list_ascii (l : list ascii) :
  String.length (string_of_list_ascii l) = List.length l.
Proof. induction l; simpl; congruence. Qed.

Lemma length_list_ascii_of_string (s : string) :
  List.length (list_ascii_of_string s) = String.length s.
Proof. induction s; simpl; congruence. Qed.

Lemma trimEnd_drops_line_break (t : string) : trimEnd (t ++ nl) <> t ++ nl.
Proof.
  assert (E : trimEnd (t ++ nl)
              = string_of_list_ascii (rev (dropWs (rev (list_ascii_of_string t))))).
  { unfold trimEnd. rewrite list_ascii_of_string_app, rev_app_distr. reflexivity. }
  intros H. rewrite E in H. apply (f_equal String.length) in H.
  rewrite length_string_of_list_ascii, length_rev in H.
  pose proof (dropWs_length (rev (list_ascii_of_string t))) as Hd.
  rewrite length_rev, length_list_ascii_of_string in Hd.
  rewrite <- length_list_ascii_of_string, list_ascii_of_string_app, length_app,
    length_list_ascii_of_string in H.
  simpl in H. lia.
Qed.

Lemma trim_bracketed (rest : string) :
  prefix "[" (trim (String "[" rest)) = true
  /\ trim (trim (String "[" rest)) = trim (String "[" rest)
  /\ forall t, trim (String "[" rest) <> t ++ nl.
Proof.
  unfold trim. rewrite trimStart_bracket.
  destruct (trimEnd_bracket rest) as (t & Et).
  pose proof (trimEnd_idem (String "[" rest)) as Hfix.
  split; [|split].
  - rewrite Et. clear. now destruct t.
  - rewrite Et at 1. rewrite trimStart_bracket, <- Et. exact Hfix.
  - intros t' E. rewrite E in Hfix. now apply trimEnd_drops_line_break in Hfix.
Qed.

Lemma string_app_assoc (a b c : string) : (a ++ b) ++ c = a ++ b ++ c.
Proof. induction a; simpl; congruence. Qed.

Lemma solid_ws (c : ascii) :
  solid c = true ->
  ws1 c = false
  /\ (forall b, ws2 b c = false)
  /\ (forall a b, ws3 a b c = false).
Proof.
  unfold solid. intros H. apply andb_prop in H as [Hlt Hws].
  apply N.ltb_lt in Hlt. apply negb_true_iff in Hws.
  split; [exact Hws|]. split.
  - intros b. unfold ws2.
    replace (N_of_ascii c =? 160)%N with false by (symmetry; apply N.eqb_neq; lia).
    apply andb_false_r.
  - intros a b. unfold ws3. cbv zeta.
    replace (N_of_ascii c =? 128)%N with false by (symmetry; apply N.eqb_neq; lia).
    replace (128 <=? N_of_ascii c)%N with false by (symmetry; apply N.leb_gt; lia).
    replace (N_of_ascii c =? 168)%N with false by (symmetry; apply N.eqb_neq; lia).
    replace (N_of_ascii c =? 169)%N with false by (symmetry; apply N.eqb_neq; lia).
    replace (N_of_ascii c =? 175)%N with false by (symmetry; apply N.eqb_neq; lia).
    replace (N_of_ascii c =? 159)%N with false by (symmetry; apply N.eqb_neq; lia).
    replace (N_of_ascii c =? 191)%N with false by (symmetry; apply N.eqb_neq; lia).
    simpl. now rewrite !andb_false_r.
Qed.

Lemma solid_inner (c : ascii) :
  solid c = true ->
  (forall a x, ws3 a c x = false) /\ (forall x, ws2 c x = false)
  /\ (forall x y, ws3 c x y = false).
Proof.
  unfold solid. intros H. apply andb_prop in H as [Hlt _]. apply N.ltb_lt in Hlt.
  split; [|split].
  - intros a x. unfold ws3. cbv zeta.
    replace (N_of_ascii c =? 154)%N with false by (symmetry; apply N.eqb_neq; lia).
    replace (N_of_ascii c =? 128)%N with false by (symmetry; apply N.eqb_neq; lia).
    replace (N_of_ascii c =? 129)%N with false by (symmetry; apply N.eqb_neq; lia).
    replace (N_of_ascii c =? 187)%N with false by (symmetry; apply N.eqb_neq; lia).
    now rewrite !andb_false_r.
  - intros x. unfold ws2.
    now replace (N_of_ascii c =? 194)%N with false by (symmetry; apply N.eqb_neq; lia).
  - intros x y. unfold ws3. cbv zeta.
    replace (N_of_ascii c =? 225)%N with false by (symmetry; apply N.eqb_neq; lia).
    replace (N_of_ascii c =? 226)%N with false by (symmetry; apply N.eqb_neq; lia).
    replace (N_of_ascii c =? 227)%N with false by (symmetry; apply N.eqb_neq; lia).
    now replace (N_of_ascii c =? 239)%N with false by (symmetry; apply N.eqb_neq; lia).
Qed.

(** The scan from the end stops at a solid byte, at the latest. *)
Lemma dropWs_keeps (c : ascii) (l m : list ascii) :
  solid c = true ->
  exists l', dropWs (l ++ c :: m)%list = (l' ++ c :: m)%list.
Proof.
  intros Hc.
  destruct (solid_ws c Hc) as (W1 & W2 & W3).
  destruct (solid_inner c Hc) as (I3 & I2 & I1).
  remember (List.length l) as n eqn:Hn.
  assert (Hle : (List.length l <= n)%nat) by lia. clear Hn.
  revert l Hle. induction n as [|n IH]; intros l Hle.
  - destruct l; [|simpl in Hle; lia].
    exists []. simpl app. cbn [dropWs]. rewrite W1.
    destruct m as [|b m2]; [reflexivity|]. rewrite W2.
    destruct m2 as [|a m3]; [reflexivity|]. now rewrite W3.
  - destruct l as [|x r].
    + exists []. simpl app. cbn [dropWs]. rewrite W1.
      destruct m as [|b m2]; [reflexivity|]. rewrite W2.
      destruct m2 as [|a m3]; [reflexivity|]. now rewrite W3.
    + simpl in Hle. rewrite <- app_comm_cons. cbn [dropWs].
      destruct (ws1 x); [apply IH; lia|].
      destruct r as [|b r2].
      * simpl app. cbv iota. rewrite I2.
        destruct m as [|a m3]; [now exists [x]|].
        rewrite I3. now exists [x].
      * simpl in Hle. rewrite <- app_comm_cons. cbv iota.
        destruct (ws2 b x); [apply IH; lia|].
        destruct r2 as [|a r3].
        -- simpl app. cbv iota. rewrite I1. now exists [x; b].
        -- simpl in Hle. rewrite <- app_comm_cons. cbv iota.
           destruct (ws3 a b x); [apply IH; lia|].
           now exists (x :: b :: a :: r3).
Qed.

Lemma string_of_list_ascii_app (a b : list ascii) :
  string_of_list_ascii (a ++ b) = string_of_list_ascii a ++ string_of_list_ascii b.
Proof. induction a; simpl; congruence. Qed.

Lemma trimEnd_keeps (c : ascii) (a b : string) :
  solid c = true -> exists t, trimEnd (a ++ String c b) = a ++ String c t.
Proof.
  intros Hc. unfold trimEnd.
  rewrite list_ascii_of_string_app. cbn [list_ascii_of_string].
  rewrite rev_app_distr. cbn [rev]. rewrite <- app_assoc. simpl app.
  destruct (dropWs_keeps c (rev (list_ascii_of_string b)) (rev (list_ascii_of_string a)) Hc)
    as (l' & ->).
  rewrite rev_app_distr. cbn [rev]. rewrite rev_involutive, <- app_assoc. simpl app.
  rewrite string_of_list_ascii_app, string_of_list_ascii_of_string.
  cbn [string_of_list_ascii]. now eexists.
Qed.

(** What an entry is before it is trimmed: its number, then a text with
    a solid byte in it. *)
Lemma legDetail_body (idx : nat) (leg : value) (text : string) :
  legDetail idx leg = Ok text ->
  exists pre c post,
    solid c = true /\ text = trim (legHead idx ++ pre ++ String c post).
Proof.
  unfold legDetail. intros H.
  apply bind_ok_inv in H as (startName & _ & H).
  apply bind_ok_inv in H as (endName & _ & H).
  apply bind_ok_inv in H as (mode & _ & H).
  apply bind_ok_inv in H as (desc & Hdesc & H).
  injection H as <-.
  destruct (is_string mode "WALK").
  - apply bind_ok_inv in Hdesc as (distance & _ & H).
    apply bind_ok_inv in H as (d & _ & H).
    apply bind_ok_inv in H as (m & _ & H).
    apply bind_ok_inv in H as (s & _ & H).
    apply bind_ok_inv in H as (e & _ & H).
    apply bind_ok_inv in H as (w & _ & H).
    injection H as <-.
    exists "도보 ", "("%char. eexists. split; reflexivity.
  - apply bind_ok_inv in Hdesc as (md & _ & H).
    apply bind_ok_inv in H as (r & _ & H).
    apply bind_ok_inv in H as (distance & _ & H).
    apply bind_ok_inv in H as (d & _ & H).
    apply bind_ok_inv in H as (m & _ & H).
    apply bind_ok_inv in H as (s & _ & H).
    apply bind_ok_inv in H as (e & _ & H).
    apply bind_ok_inv in H as (l & _ & H).
    apply bind_ok_inv in H as (p & _ & H).
    injection H as <-.
    exists (md ++ r ++ " "), "-"%char,
      (" " ++ d ++ "m, 약 " ++ m ++ "분" ++ nl ++ s ++ e ++ l ++ p).
    split; [reflexivity|].
    unfold legHead. rewrite !string_app_assoc. reflexivity.
Qed.

(** X9: every entry of the detail block is trimmed and keeps its
    number.  Whatever the leg, its entry starts with its number in
    brackets, [idx + 1] in decimal, and a space, and goes on after it;
    trimming it again changes nothing, and it does not end with a line
    break: between two entries there is the one empty line that the
    join puts there, and no other. *)
Theorem entries_are_trimmed (idx : nat) (leg : value) (text : string) :
  legDetail idx leg = Ok text ->
  (exists rest,
      rest <> EmptyString
      /\ text = "[" ++ decimal (Z.of_nat idx + 1) ++ "] " ++ rest)
  /\ trim text = text
  /\ forall t, text <> t ++ nl.
Proof.
  intros H. destruct (legDetail_body idx leg text H) as (pre & c & post & Hc & ->).
  split.
  - assert (E : legHead idx ++ pre ++ String c post
                = String "[" ((decimal (Z.of_nat idx + 1) ++ "] ") ++ pre ++ String c post)).
    { unfold legHead. now rewrite !string_app_assoc. }
    unfold trim. rewrite E, trimStart_bracket, <- E.
    rewrite <- !string_app_assoc.
    destruct (trimEnd_keeps c (legHead idx ++ pre) post Hc) as (t & ->).
    exists (pre ++ String c t). split.
    + destruct pre; discriminate.
    + unfold legHead. now rewrite !string_app_assoc.
  - assert (E : legHead idx ++ pre ++ String c post
                = String "[" ((decimal (Z.of_nat idx + 1) ++ "] ") ++ pre ++ String c post)).
    { unfold legHead. now rewrite !string_app_assoc. }
    rewrite E. apply trim_bracketed.
Qed.

Lemma entries_are_trimmed_witness :
  (exists rest,
      rest <> EmptyString
      /\ "[1] 도보 (300m, 약 4분)" = "[" ++ decimal (Z.of_nat 0 + 1) ++ "] " ++ rest)
  /\ trim "[1] 도보 (300m, 약 4분)" = "[1] 도보 (300m, 약 4분)"
  /\ forall t, "[1] 도보 (300m, 약 4분)" <> t ++ nl.
Proof.
  apply (entries_are_trimmed 0
           (JObj [("mode", JStr "WALK"); ("distance", JNum 300); ("sectionTime", JNum 240)])).
  reflexivity.
Defined.

(** ** Properties of [ExchangeRateApiTool.execute] *)

Lemma rethrow_ok_inv {A : Type} (p : string) (attempt : result A) (a : A) :
  rethrow p attempt = Ok a -> attempt = Ok a.
Proof. unfold rethrow, throwError. destruct attempt; congruence. Qed.

Lemma rethrow_throw_inv {A : Type} (p : string) (attempt : result A) (e : JsError) :
  rethrow p attempt = Throw e ->
  exists cause, attempt = Throw cause /\ e = UpstreamError (p ++ message cause).
Proof.
  unfold rethrow, throwError.
  destruct attempt as [a|cause|]; intros H; try discriminate.
  injection H as <-. now exists cause.
Qed.

Lemma await_ok_inv (u : upstream) (data : value) :
  await u = Ok data -> u = Responded data.
Proof. destruct u; simpl; congruence. Qed.

(** X10: when [execute] returns, it returns the rate of a successful
    response: the request for the base currency was answered, the
    [result] of the answer is the string "success", and the rate is the
    entry of [rates] for the target, which is not [undefined].  The
    base and the target are the ones of the call and the date is the
    [time_last_update_utc] of the answer.  Conversely every such answer
    is returned, so a rate of 0 or [null] is returned as a rate. *)
Theorem exchange_returns (API_URL : string) (axios_get : string -> upstream)
    (base target : string) :
  (forall r,
      ExchangeRate.execute API_URL axios_get base target = Ok r ->
      ExchangeRate.base r = base
      /\ ExchangeRate.target r = target
      /\ ExchangeRate.rate r <> JUndefined
      /\ exists data,
          axios_get (API_URL ++ base) = Responded data
          /\ prop data "result" = JStr "success"
          /\ getComputed (prop data "rates") target = Ok (ExchangeRate.rate r)
          /\ ExchangeRate.date r = prop data "time_last_update_utc")
  /\ (forall data rate,
         axios_get (API_URL ++ base) = Responded data ->
         prop data "result" = JStr "success" ->
         getComputed (prop data "rates") target = Ok rate ->
         rate <> JUndefined ->
         ExchangeRate.execute API_URL axios_get base target
         = Ok {| ExchangeRate.base := base; ExchangeRate.target := target;
                 ExchangeRate.rate := rate;
                 ExchangeRate.date := prop data "time_last_update_utc" |}).
Proof.
  split.
  - intros r H. unfold ExchangeRate.execute in H. apply rethrow_ok_inv in H.
    unfold ExchangeRate.attempt in H.
    apply bind_ok_inv in H as (data & Hdata & H).
    apply bind_ok_inv in H as (status & Hstatus & H).
    apply get_ok_inv in Hstatus as [Hn ->].
    destruct (is_string (prop data "result") "success") eqn:Hs; [|discriminate H].
    simpl negb in H. cbv iota in H.
    apply bind_ok_inv in H as (rates & Hrates & H).
    apply get_ok_inv in Hrates as [_ ->].
    apply bind_ok_inv in H as (rate & Hrate & H).
    destruct (is_undefined rate) eqn:Hu; [discriminate H|].
    apply bind_ok_inv in H as (date & Hdate & H).
    apply get_ok_inv in Hdate as [_ ->].
    injection H as <-. simpl.
    repeat split.
    + intros E. rewrite E in Hu. discriminate.
    + exists data. repeat split.
      * now apply await_ok_inv.
      * now apply is_string_spec.
      * exact Hrate.
  - intros data rate Hget Hs Hrate Hdef.
    assert (Hn : nullish data = false) by (destruct data; discriminate || reflexivity).
    unfold ExchangeRate.execute, ExchangeRate.attempt. rewrite Hget. simpl bind.
    rewrite !(get_ok _ _ Hn), Hs. simpl bind. rewrite Hrate. simpl bind.
    destruct rate; try reflexivity. now destruct Hdef.
Qed.

Lemma exchange_returns_witness :
  let data := JObj [("result", JStr "success");
                    ("rates", JObj [("USD", JNum 1); ("KRW", JNum 0)]);
                    ("time_last_update_utc", JStr "Mon, 02 Nov 2026")] in
  ExchangeRate.execute "https://example/" (fun _ => Responded data) "USD" "KRW"
  = Ok {| ExchangeRate.base := "USD"; ExchangeRate.target := "KRW";
          ExchangeRate.rate := JNum 0;
          ExchangeRate.date := JStr "Mon, 02 Nov 2026" |}.
Proof.
  intros data.
  apply (proj2 (exchange_returns "https://example/" (fun _ => Responded data) "USD" "KRW")
           data (JNum 0)); try reflexivity.
  discriminate.
Defined.

(** X11: every failure leaves [execute] as an error whose message is the
    fixed prefix followed by the message of the cause, the tool's own
    two errors included.  A rejected request gives the message of the
    rejection; a [null] or missing body the [TypeError] on [result]; an
    answer whose [result] is not "success" the not-success text,
    whatever its rates; missing [rates] the [TypeError] that names the
    target; and an object of rates without the target the text that
    names the target. *)
Theorem exchange_failures (API_URL : string) (axios_get : string -> upstream)
    (base target : string) :
  (forall e,
      ExchangeRate.execute API_URL axios_get base target = Throw e ->
      exists cause, e = UpstreamError ("환율 데이터 가져오기 실패: " ++ cause))
  /\ (forall msg,
         axios_get (API_URL ++ base) = Rejected msg ->
         ExchangeRate.execute API_URL axios_get base target
         = Throw (UpstreamError ("환율 데이터 가져오기 실패: " ++ msg)))
  /\ (forall data,
         axios_get (API_URL ++ base) = Responded data ->
         (nullish data = true ->
          ExchangeRate.execute API_URL axios_get base target
          = Throw (UpstreamError ("환율 데이터 가져오기 실패: "
                                    ++ message (CannotRead data "result"))))
         /\ (nullish data = false ->
             prop data "result" <> JStr "success" ->
             ExchangeRate.execute API_URL axios_get base target
             = Throw (UpstreamError "환율 데이터 가져오기 실패: 환율 데이터 조회 실패"))
         /\ (prop data "result" = JStr "success" ->
             nullish (prop data "rates") = true ->
             ExchangeRate.execute API_URL axios_get base target
             = Throw (UpstreamError
                        ("환율 데이터 가져오기 실패: "
                           ++ message (CannotRead (prop data "rates") target))))
         /\ (forall rates,
                prop data "result" = JStr "success" ->
                prop data "rates" = JObj rates ->
                hasKey target rates = false ->
                existsb (String.eqb target) objectPrototypeKeys = false ->
                ExchangeRate.execute API_URL axios_get base target
                = Throw (UpstreamError
                           ("환율 데이터 가져오기 실패: 대상 통화(" ++ target
                              ++ ")에 대한 환율 정보를 찾을 수 없습니다.")))).
Proof.
  split; [|split].
  - intros e H. unfold ExchangeRate.execute in H.
    apply rethrow_throw_inv in H as (cause & _ & ->). now eexists.
  - intros msg Hget. unfold ExchangeRate.execute, ExchangeRate.attempt.
    now rewrite Hget.
  - intros data Hget.
    unfold ExchangeRate.execute, ExchangeRate.attempt. rewrite Hget. simpl bind.
    split; [|split; [|split]].
    + intros Hn. unfold get. rewrite Hn. reflexivity.
    + intros Hn Hnot. rewrite (get_ok _ _ Hn). simpl bind.
      destruct (is_string (prop data "result") "success") eqn:E; [|reflexivity].
      apply is_string_spec in E. contradiction.
    + intros Hs Hrates.
      assert (Hn : nullish data = false) by (destruct data; discriminate || reflexivity).
      rewrite !(get_ok _ _ Hn), Hs. simpl bind.
      destruct (prop data "rates"); try discriminate Hrates; reflexivity.
    + intros rates Hs Hrates Hkey Hproto.
      assert (Hn : nullish data = false) by (destruct data; discriminate || reflexivity).
      assert (Hrate : getComputed (JObj rates) target = Ok JUndefined)
        by (unfold getComputed; now rewrite Hkey, Hproto).
      rewrite !(get_ok _ _ Hn), Hs, Hrates. cbn [bind]. rewrite Hrate. reflexivity.
Qed.

Lemma exchange_failures_witness :
  ExchangeRate.execute "https://example/"
    (fun _ => Responded (JObj [("result", JStr "success"); ("rates", JObj [("USD", JNum 1)])]))
    "USD" "JPY"
  = Throw (UpstreamError
             ("환율 데이터 가져오기 실패: 대상 통화(" ++ "JPY"
                ++ ")에 대한 환율 정보를 찾을 수 없습니다.")).
Proof.
  apply (proj2 (proj2 (proj2
           (proj2 (proj2 (exchange_failures "https://example/"
                            (fun _ => Responded (JObj [("result", JStr "success");
                                                       ("rates", JObj [("USD", JNum 1)])]))
                            "USD" "JPY")) _ eq_refl)))
           [("USD", JNum 1)]); reflexivity.
Defined.

(** ** Properties of [WeatherApiTool] *)

Lemma decimal_parse (n : Z) : NilZero.int_of_string (decimal n) = Some (Z.to_int n).
Proof.
  unfold decimal. apply NilZero.isi; destruct n; simpl; try discriminate;
    intros [= E]; now apply DecimalPos.Unsigned.to_uint_nonnil in E.
Qed.

Lemma decimal_inj (n k : Z) : decimal n = decimal k -> n = k.
Proof.
  intros H. apply DecimalZ.to_int_inj.
  pose proof (decimal_parse n) as Hn. rewrite H, decimal_parse in Hn. congruence.
Qed.

Lemma decimal_not_a_member (n : Z) :
  existsb (String.eqb (decimal n)) objectPrototypeKeys = false.
Proof.
  destruct (existsb (String.eqb (decimal n)) objectPrototypeKeys) eqn:E; [|reflexivity].
  apply existsb_exists in E as (k & Hk & E). apply String.eqb_eq in E.
  pose proof (decimal_parse n) as Hp. rewrite E in Hp.
  simpl in Hk.
  repeat (destruct Hk as [<-|Hk]; [discriminate Hp|]). destruct Hk.
Qed.

Lemma entry_In (key label : string) (table : list (string * string)) :
  Weather.entry key table = Some label -> In (key, label) table.
Proof.
  induction table as [|[k l] t IH]; simpl; [discriminate|].
  destruct (String.eqb_spec key k) as [->|_].
  - intros [= ->]. now left.
  - intros H. right. now apply IH.
Qed.

Lemma entry_code (n : Z) (label : string) :
  Weather.entry (decimal n) Weather.conditions = Some label -> In n weatherCodes.
Proof.
  intros H. apply entry_In in H.
  assert (Hkeys : map fst Weather.conditions = map decimal weatherCodes) by reflexivity.
  apply (in_map fst) in H. rewrite Hkeys in H. simpl fst in H.
  apply in_map_iff in H as (k & Hk & Hin).
  apply decimal_inj in Hk. now subst k.
Qed.

Lemma condition_of_number (n : Z) :
  safe n = true ->
  Weather.getWeatherCondition (JNum n)
  = Ok match Weather.entry (decimal n) Weather.conditions with
       | Some label => if String.eqb label EmptyString then Weather.UNKNOWN else label
       | None => Weather.UNKNOWN
       end.
Proof.
  intros Hs. unfold Weather.getWeatherCondition. simpl ToString.
  unfold NumberToString. rewrite Hs. cbn [bind].
  destruct (Weather.entry (decimal n) Weather.conditions); [reflexivity|].
  now rewrite decimal_not_a_member.
Qed.

(** The table, with its codes as integers: a check by evaluation. *)
Lemma conditions_checked :
  forallb (fun n =>
    safe n
    && match Weather.entry (decimal n) Weather.conditions with
       | Some label =>
         negb (String.eqb label EmptyString)
         && negb (String.eqb label Weather.UNKNOWN)
         && forallb (fun k =>
              match Weather.entry (decimal k) Weather.conditions with
              | Some label' => implb (String.eqb label label') (n =? k)
              | None => false
              end) weatherCodes
       | None => false
       end) weatherCodes = true.
Proof. vm_compute. reflexivity. Qed.

(** X12: [getWeatherCondition] on an integer code.  A code of the table
    gives its label, which is neither empty nor the unknown label, and
    two codes of the table with the same label are the same code; every
    other integer, negative or large, gives the unknown label.  A code
    that arrives as the decimal string of an integer is read as that
    integer. *)
Theorem weather_condition_of_code :
  (forall n, safe n = true -> ~ In n weatherCodes ->
             Weather.getWeatherCondition (JNum n) = Ok "알 수 없음")
  /\ (forall n, In n weatherCodes ->
        exists label,
          Weather.getWeatherCondition (JNum n) = Ok label
          /\ label <> "알 수 없음" /\ label <> EmptyString)
  /\ (forall n k label,
         In n weatherCodes -> In k weatherCodes ->
         Weather.getWeatherCondition (JNum n) = Ok label ->
         Weather.getWeatherCondition (JNum k) = Ok label ->
         n = k)
  /\ (forall n, safe n = true ->
        Weather.getWeatherCondition (JStr (decimal n))
        = Weather.getWeatherCondition (JNum n)).
Proof.
  pose proof (proj1 (forallb_forall _ _) conditions_checked) as Hcheck.
  assert (Hin : forall n, In n weatherCodes ->
            safe n = true
            /\ exists label,
                 Weather.entry (decimal n) Weather.conditions = Some label
                 /\ String.eqb label EmptyString = false
                 /\ String.eqb label Weather.UNKNOWN = false
                 /\ forall k label',
                      In k weatherCodes ->
                      Weather.entry (decimal k) Weather.conditions = Some label' ->
                      label = label' -> n = k).
  { intros n Hn. specialize (Hcheck n Hn). apply andb_prop in Hcheck as [Hs Hc].
    split; [exact Hs|].
    destruct (Weather.entry (decimal n) Weather.conditions) as [label|]; [|discriminate].
    apply andb_prop in Hc as [Hc Hall]. apply andb_prop in Hc as [He Hu].
    exists label. split; [reflexivity|].
    split; [now apply negb_true_iff in He|]. split; [now apply negb_true_iff in Hu|].
    intros k label' Hk Ek ->.
    pose proof (proj1 (forallb_forall _ _) Hall k Hk) as Hkk. cbv beta in Hkk.
    rewrite Ek, String.eqb_refl in Hkk. now apply Z.eqb_eq. }
  split; [|split; [|split]].
  - intros n Hs Hnot. rewrite (condition_of_number n Hs).
    destruct (Weather.entry (decimal n) Weather.conditions) as [label|] eqn:E;
      [|reflexivity].
    now apply entry_code in E.
  - intros n Hn. destruct (Hin n Hn) as (Hs & label & E & He & Hu & _).
    exists label. rewrite (condition_of_number n Hs), E, He.
    split; [reflexivity|]. split; intros ->; discriminate.
  - intros n k label Hn Hk En Ek.
    destruct (Hin n Hn) as (Hsn & ln & Eln & Hen & _ & Hinj).
    destruct (Hin k Hk) as (Hsk & lk & Elk & Hek & _ & _).
    rewrite (condition_of_number n Hsn), Eln, Hen in En.
    rewrite (condition_of_number k Hsk), Elk, Hek in Ek.
    apply (Hinj k lk Hk Elk). congruence.
  - intros n Hs. unfold Weather.getWeatherCondition. simpl ToString.
    unfold NumberToString. now rewrite Hs.
Qed.

Lemma weather_condition_of_code_witness :
  Weather.getWeatherCondition (JNum 100) = Ok "알 수 없음"
  /\ (exists label,
         Weather.getWeatherCondition (JNum 95) = Ok label
         /\ label <> "알 수 없음" /\ label <> EmptyString).
Proof.
  destruct weather_condition_of_code as (Hout & Hin & _).
  split.
  - apply Hout; [reflexivity|].
    simpl. intros H. repeat (destruct H as [H|H]; [discriminate H|]). exact H.
  - apply Hin. simpl. tauto.
Defined.

(** [Math.round] leaves a safe integer as it is. *)
Lemma Math_round_integer (n : Z) :
  Z.abs n < 2 ^ 53 -> Math_round (toDouble n) = Some n.
Proof.
  intros Hn.
  assert (H : forall s p,
             Z.pos p < 2 ^ 53 ->
             Math_round (binary_round prec emax s p 0)
             = Some (if s then Z.neg p else Z.pos p)).
  { intros s p Hp.
    destruct (binary_round_integer s p Hp) as (m & e & -> & He & Hm & Hv).
    unfold Math_round. f_equal.
    destruct (Z.leb_spec 0 e) as [H0|H0].
    - assert (e = 0) by lia. subst e.
      change (2 ^ (- 0)) with 1 in Hv. change (2 ^ (1 - 0)) with 2.
      rewrite Z.mul_1_r in Hv. rewrite Z.mul_1_r. destruct s.
      + change (Z.neg m) with (- Z.pos m). change (Z.neg p) with (- Z.pos p). lia.
      + exact Hv.
    - replace (1 - e) with (1 + - e) by lia.
      rewrite (Z.pow_add_r 2 1) by lia. change (2 ^ 1) with 2.
      assert (HP : 0 < 2 ^ (- e)) by (apply Z.pow_pos_nonneg; lia).
      generalize dependent (2 ^ (- e)). intros P Hv HP.
      symmetry. apply Z.div_unique with P; [lia|].
      destruct s.
      + change (Z.neg m) with (- Z.pos m). change (Z.neg p) with (- Z.pos p).
        rewrite Hv. ring.
      + rewrite Hv. ring. }
  unfold toDouble, binary_normalize. destruct n as [|p|p]; [reflexivity| |].
  - apply (H false p). exact Hn.
  - apply (H true p). exact Hn.
Qed.

(** X13: a city that the geocoder does not know.  When the answer to
    the first request has no [results], or an empty list of them,
    [execute] throws the error that names the city as the caller wrote
    it, behind the fixed prefix; the second request plays no part. *)
Theorem weather_city_not_found (geocoding : string -> upstream)
    (forecast : value -> value -> upstream) (city : string) (geo : value) :
  geocoding city = Responded geo ->
  nullish geo = false ->
  nullish (prop geo "results") = true \/ prop geo "results" = JArr [] ->
  Weather.execute geocoding forecast city
  = Throw (UpstreamError ("날씨 데이터 가져오기 실패: 도시 '" ++ city
                            ++ "'를 찾을 수 없습니다")).
Proof.
  intros Hgeo Hn Hresults.
  unfold Weather.execute, Weather.attempt. rewrite Hgeo. cbn [await bind].
  rewrite (get_ok _ _ Hn). cbn [bind].
  assert (Hlen : truthy (optget (prop geo "results") "length") = false).
  { destruct Hresults as [H|H].
    - unfold optget. now rewrite H.
    - now rewrite H. }
  rewrite Hlen. reflexivity.
Qed.

Lemma weather_city_not_found_witness :
  Weather.execute (fun _ => Responded (JObj [("generationtime_ms", JNum 1)]))
    (fun _ _ => Rejected "unused") "Atlantis"
  = Throw (UpstreamError ("날씨 데이터 가져오기 실패: 도시 '" ++ "Atlantis"
                            ++ "'를 찾을 수 없습니다")).
Proof.
  apply (weather_city_not_found _ _ "Atlantis" (JObj [("generationtime_ms", JNum 1)]));
    [reflexivity|reflexivity|left; reflexivity].
Defined.

(** X14: what [execute] returns for whole readings.  When the geocoder
    answers with a list of results whose first one is an object or any
    other value than [null] and [undefined], the forecast for the
    latitude and the longitude of that result has a [current] part, and
    the four rounded readings are integers, [execute] returns: the city
    is the name the geocoder gives, not the text of the caller; the
    readings are returned as they are; the precipitation is passed on as
    it came, whatever it is. *)
Theorem weather_returns (geocoding : string -> upstream)
    (forecast : value -> value -> upstream) (city : string)
    (geo location weather : value) (rest : list value)
    (label : string) (t h w f : Z) :
  let current := prop weather "current" in
  geocoding city = Responded geo ->
  prop geo "results" = JArr (location :: rest) ->
  nullish location = false ->
  forecast (prop location "latitude") (prop location "longitude") = Responded weather ->
  nullish current = false ->
  Weather.getWeatherCondition (prop current "weather_code") = Ok label ->
  prop current "temperature_2m" = JNum t -> safe t = true ->
  prop current "relative_humidity_2m" = JNum h -> safe h = true ->
  prop current "wind_speed_10m" = JNum w -> safe w = true ->
  prop current "apparent_temperature" = JNum f -> safe f = true ->
  Weather.execute geocoding forecast city
  = Ok {| Weather.city := prop location "name";
          Weather.temperature := t;
          Weather.condition := label;
          Weather.humidity := h;
          Weather.windSpeed := w;
          Weather.feelsLike := f;
          Weather.precipitation := prop current "precipitation" |}.
Proof.
  intros current Hgeo Hresults Hloc Hfc Hcur Hcond Ht St Hh Sh Hw Sw Hf Sf.
  assert (Hg : nullish geo = false).
  { destruct geo; try reflexivity; discriminate Hresults. }
  assert (Hwe : nullish weather = false).
  { destruct weather; try reflexivity; discriminate Hcur. }
  assert (Hround : forall n, safe n = true -> Weather.round (JNum n) = Ok n).
  { intros n Hn. unfold Weather.round, ToNumber. rewrite Hn. cbn [bind].
    now rewrite (Math_round_integer _ (safe_bound _ Hn)). }
  unfold Weather.execute, Weather.attempt. rewrite Hgeo. cbn [await bind].
  rewrite (get_ok _ _ Hg). cbn [bind]. rewrite Hresults.
  change (truthy (optget (JArr (location :: rest)) "length"))
    with (negb (Z.of_nat (S (List.length rest)) =? 0)).
  replace (Z.of_nat (S (List.length rest)) =? 0) with false
    by (symmetry; apply Z.eqb_neq; lia).
  cbn [negb index0 hd].
  rewrite !(get_ok _ _ Hloc). cbn [bind]. rewrite Hfc. cbn [await bind].
  rewrite (get_ok _ _ Hwe). cbn [bind]. fold current.
  rewrite !(get_ok _ _ Hcur). cbn [bind]. rewrite Hcond. cbn [bind].
  rewrite Ht, Hh, Hw, Hf.
  rewrite (Hround _ St). cbn [bind]. rewrite (Hround _ Sh). cbn [bind].
  rewrite (Hround _ Sw). cbn [bind]. rewrite (Hround _ Sf). cbn [bind].
  reflexivity.
Qed.

Lemma weather_returns_witness :
  let location := JObj [("name", JStr "Seoul"); ("latitude", JNum 37);
                        ("longitude", JNum 127)] in
  let weather := JObj [("current", JObj [("weather_code", JNum 61);
                                         ("temperature_2m", JNum 21);
                                         ("relative_humidity_2m", JNum 60);
                                         ("wind_speed_10m", JNum 3);
                                         ("apparent_temperature", JNum (-2));
                                         ("precipitation", JStr "0.4")])] in
  Weather.execute (fun _ => Responded (JObj [("results", JArr [location])]))
    (fun _ _ => Responded weather) "서울"
  = Ok {| Weather.city := JStr "Seoul";
          Weather.temperature := 21;
          Weather.condition := "약한 비";
          Weather.humidity := 60;
          Weather.windSpeed := 3;
          Weather.feelsLike := -2;
          Weather.precipitation := JStr "0.4" |}.
Proof.
  intros location weather.
  apply (weather_returns (fun _ => Responded (JObj [("results", JArr [location])]))
           (fun _ _ => Responded weather) "서울"
           (JObj [("results", JArr [location])]) location weather []
           "약한 비" 21 60 3 (-2)); reflexivity.
Defined.

(** X15: no failure leaves [execute] without the prefix of the tool.
    The rejection of either request is reported with its own message;
    a first result that is [null] is reported as the [TypeError] on
    [latitude], before any forecast is asked for. *)
Theorem weather_failures (geocoding : string -> upstream)
    (forecast : value -> value -> upstream) (city : string) :
  (forall e,
      Weather.execute geocoding forecast city = Throw e ->
      exists cause, e = UpstreamError ("날씨 데이터 가져오기 실패: " ++ cause))
  /\ (forall msg,
         geocoding city = Rejected msg ->
         Weather.execute geocoding forecast city
         = Throw (UpstreamError ("날씨 데이터 가져오기 실패: " ++ msg)))
  /\ (forall geo location rest,
         geocoding city = Responded geo ->
         prop geo "results" = JArr (location :: rest) ->
         (nullish location = true ->
          Weather.execute geocoding forecast city
          = Throw (UpstreamError
                     ("날씨 데이터 가져오기 실패: "
                        ++ message (CannotRead location "latitude"))))
         /\ (forall msg,
                nullish location = false ->
                forecast (prop location "latitude") (prop location "longitude")
                = Rejected msg ->
                Weather.execute geocoding forecast city
                = Throw (UpstreamError ("날씨 데이터 가져오기 실패: " ++ msg)))).
Proof.
  split; [|split].
  - intros e H. unfold Weather.execute in H.
    apply rethrow_throw_inv in H as (e0 & _ & ->). now exists (message e0).
  - intros msg Hgeo. unfold Weather.execute, Weather.attempt.
    now rewrite Hgeo.
  - intros geo location rest Hgeo Hresults.
    assert (Hg : nullish geo = false).
    { destruct geo; try reflexivity; discriminate Hresults. }
    assert (Hstart : Weather.attempt geocoding forecast city
                     = (latitude <- get location "latitude" ;;
                        longitude <- get location "longitude" ;;
                        weather <- await (forecast latitude longitude) ;;
                        Weather.attempt (fun _ => Responded geo)
                          (fun _ _ => Responded weather) city)).
    { unfold Weather.attempt. rewrite Hgeo. cbn [await bind].
      rewrite (get_ok _ _ Hg). cbn [bind]. rewrite Hresults.
      change (truthy (optget (JArr (location :: rest)) "length"))
        with (negb (Z.of_nat (S (List.length rest)) =? 0)).
      replace (Z.of_nat (S (List.length rest)) =? 0) with false
        by (symmetry; apply Z.eqb_neq; lia).
      cbn [negb index0 hd].
      unfold get. destruct (nullish location); reflexivity. }
    split.
    + intros Hloc. unfold Weather.execute. rewrite Hstart.
      unfold get. rewrite Hloc. reflexivity.
    + intros msg Hloc Hfc. unfold Weather.execute. rewrite Hstart.
      rewrite !(get_ok _ _ Hloc). cbn [bind]. rewrite Hfc. reflexivity.
Qed.

Lemma weather_failures_witness :
  Weather.execute (fun _ => Responded (JObj [("results", JArr [JNull])]))
    (fun _ _ => Rejected "unused") "서울"
  = Throw (UpstreamError
             "날씨 데이터 가져오기 실패: Cannot read properties of null (reading 'latitude')").
Proof.
  destruct (weather_failures (fun _ => Responded (JObj [("results", JArr [JNull])]))
              (fun _ _ => Rejected "unused") "서울") as (_ & _ & H).
  destruct (H (JObj [("results", JArr [JNull])]) JNull [] eq_refl eq_refl) as [H1 _].
  exact (H1 eq_refl).
Defined.
